(** * House price predictor (app.py): a shallow embedding and its properties

    The program is a Streamlit script.  Each user interaction re-runs the
    script from the top; the script reads two pickled artifacts, renders a
    form, and on submission calls the model once and renders the results.

    The embedding keeps that shape:
    - Python integers are exact ([Z]); the numbers the model returns and the
      script computes with (prices, importances, percentages) are binary64
      floats, Rocq's primitive [float], with their IEEE 754 operations; the
      bathrooms slider, whose values are the halves from 0.5 to 10, is read
      as an exact rational;
    - a [DataFrame] built from a dict of columns is an ordered association
      list (pandas keeps the insertion order of the dict);
    - the script is written in a small monad [App] that threads the list of
      rendered UI elements and ends in a value, a raised [Exception], or
      Streamlit's stop signal;
    - the model object is opaque and is a parameter; the script is written
      over the sort it applies to the importance frame and over the argument
      check of [st.progress], and pandas' [sort_values] is modelled
      separately ([pandas_sort_values]). *)

From Stdlib Require Import ZArith QArith Qpower Qabs Bool String List Permutation Sorted Lia Floats.
From stdpp Require Import base gmap strings list.
Import ListNotations.
Local Open Scope string_scope.
Local Open Scope list_scope.

(** ** Configuration (app.py, lines 6-12) *)

Definition PAGE_TITLE : string := "🏠 Smart House Price Predictor".
Definition PAGE_ICON : string := "🏠".
Definition MODEL_PATH : string := "house_price_model.pkl".
Definition FEATURES_PATH : string := "feature_names.pkl".
Definition MODEL_STD_DEV : Z := 19013.

(** ** Python values and data frames *)

Inductive scalar : Type :=
| PyInt (z : Z)
| PyFloat (q : Q).

(** A frame built from a dict of equally long columns: the columns in
    insertion order, each with its name. *)
Definition DataFrame : Type := list (string * list scalar).

Definition columns (df : DataFrame) : list string := map fst df.

Definition n_rows (df : DataFrame) : option nat :=
  match df with
  | [] => Some 0%nat
  | (_, c) :: rest =>
      if forallb (fun kc => Nat.eqb (length (snd kc)) (length c)) rest
      then Some (length c) else None
  end.

(** ** prepare_input (app.py, lines 43-53) *)

Definition prepare_input
  (bedrooms : Z) (bathrooms : Q) (area age quality garage : Z)
  (neighborhood_encoded : Z) : DataFrame :=
  [ ("BedroomAbvGr", [PyInt bedrooms]);
    ("TotalBathrooms", [PyFloat bathrooms]);
    ("TotalArea", [PyInt area]);
    ("HouseAge", [PyInt age]);
    ("OverallQual", [PyInt quality]);
    ("GarageCars", [PyInt garage]);
    ("Neighborhood_encoded", [PyInt neighborhood_encoded]) ].

(** The seven keys of the dict literal, in the order they are written. *)
Definition INPUT_COLUMNS : list string :=
  [ "BedroomAbvGr"; "TotalBathrooms"; "TotalArea"; "HouseAge";
    "OverallQual"; "GarageCars"; "Neighborhood_encoded" ].

(** ** The form (app.py, lines 68-83) *)

Record IntWidget : Type := mkIntWidget {
  iw_label : string;
  iw_min : Z;
  iw_max : Z;
  iw_value : Z
}.

Record FloatWidget : Type := mkFloatWidget {
  fw_label : string;
  fw_min : Q;
  fw_max : Q;
  fw_value : Q;
  fw_step : Q
}.

Record SelectWidget : Type := mkSelectWidget {
  sw_label : string;
  sw_options : list string
}.

Definition bedrooms_slider : IntWidget := mkIntWidget "Bedrooms" 1 10 3.
Definition bathrooms_slider : FloatWidget :=
  mkFloatWidget "Total Bathrooms" (1 # 2) 10 2 (1 # 2).
Definition area_input : IntWidget := mkIntWidget "Total Area (sqft)" 500 20000 1500.
Definition age_slider : IntWidget := mkIntWidget "House Age (years)" 0 100 10.
Definition quality_slider : IntWidget := mkIntWidget "Overall Quality (1-10)" 1 10 7.
Definition garage_slider : IntWidget := mkIntWidget "Garage Cars" 0 5 2.
Definition neighborhood_select : SelectWidget :=
  mkSelectWidget "Neighborhood" ["Average Area"; "Good Area"; "Premium Area"].

(** What a widget can hand back to the script.  An integer slider or number
    input (step 1) yields an integer between its bounds; the float slider
    yields [min + k * step] between its bounds; the select box yields one of
    its options. *)
Definition int_widget_yields (w : IntWidget) (v : Z) : Prop :=
  (iw_min w <= v <= iw_max w)%Z.

Definition float_widget_yields (w : FloatWidget) (v : Q) : Prop :=
  (fw_min w <= v)%Q /\ (v <= fw_max w)%Q /\
  exists k : Z, (0 <= k)%Z /\ (v == fw_min w + inject_Z k * fw_step w)%Q.

Definition select_widget_yields (w : SelectWidget) (v : string) : Prop :=
  In v (sw_options w).

(** The values the widgets return in one run of the script. *)
Record FormState : Type := mkFormState {
  bedrooms : Z;
  bathrooms : Q;
  area : Z;
  age : Z;
  quality : Z;
  garage : Z;
  neighborhood : string;
  submitted : bool
}.

Definition reachable (f : FormState) : Prop :=
  int_widget_yields bedrooms_slider (bedrooms f) /\
  float_widget_yields bathrooms_slider (bathrooms f) /\
  int_widget_yields area_input (area f) /\
  int_widget_yields age_slider (age f) /\
  int_widget_yields quality_slider (quality f) /\
  int_widget_yields garage_slider (garage f) /\
  select_widget_yields neighborhood_select (neighborhood f).

(** neighborhood_map (line 79): a dict literal; indexing with a key that is
    not in it raises KeyError, here [None]. *)
Definition neighborhood_map : gmap string Z :=
  {[ "Average Area" := 5%Z; "Good Area" := 10%Z; "Premium Area" := 15%Z ]}.

Definition neighborhood_encoded (f : FormState) : option Z :=
  neighborhood_map !! neighborhood f.

(** ** The price band (app.py, lines 96-98) *)

(** A Python int where a float is needed (an operand of a float64
    operation, the argument of an [f] format): the float of that value.
    The script does this with its constants 19013 and 100 only, which are
    converted exactly. *)
Definition py_float (z : Z) : float := PrimFloat.of_uint63 (Uint63.of_Z z).

Definition lower_bound (predicted_price : float) : float :=
  (predicted_price - py_float MODEL_STD_DEV)%float.

Definition upper_bound (predicted_price : float) : float :=
  (predicted_price + py_float MODEL_STD_DEV)%float.

(** ** Text built by f-strings

    An f-string is kept as its pieces: literal text, an interpolated string,
    and numbers with the format they are written with. *)

Inductive piece : Type :=
| Lit (s : string)            (* literal text *)
| Str (s : string)            (* {s} *)
| FmtInt (z : Z)              (* {z} *)
| Fmt_comma_0f (x : float)    (* {x:,.0f} *)
| Fmt_1f (x : float).         (* {x:.1f} *)

Definition fstring : Type := list piece.

(** ** Exceptions

    [Exception] stands for the instances of Python's class [Exception] and
    its subclasses, which is what the script's [except Exception] clauses
    name.  [exc_class] is the class, [exc_str] is [str(e)]. *)

Record Exception : Type := mkException {
  exc_class : string;
  exc_str : string
}.

(** ** The artifacts on disk and the model object *)

(** The model is used through two operations only: [predict], which returns
    an array of prices or raises, and the attribute [feature_importances_],
    whose lookup returns an array or raises. *)
Record Model : Type := mkModel {
  predict : DataFrame -> Exception + list float;
  feature_importances_ : Exception + list float
}.

(** [open(path, 'rb')] followed by [pickle.load]. *)
Inductive unpickled (A : Type) : Type :=
| FileNotFound                 (* open raises FileNotFoundError *)
| LoadFailed (e : Exception)   (* open or pickle.load raises another Exception *)
| Loaded (a : A).

Arguments FileNotFound {A}.
Arguments LoadFailed {A} e.
Arguments Loaded {A} a.

Record Disk : Type := mkDisk {
  model_at : string -> unpickled Model;
  features_at : string -> unpickled (list string)
}.

(** ** What the script renders, and the script monad *)

Inductive element : Type :=
| PageConfig (page_title page_icon layout : string)
| Title (s : string)
| Markdown (t : fstring)
| ErrorBox (t : fstring)
| SidebarHeader (s : string)
| Slider (w : IntWidget)
| FloatSlider (w : FloatWidget)
| NumberInput (w : IntWidget) (help : string)
| SelectBox (w : SelectWidget)
| FormSubmitButton (label : string)
| PredictCall (df : DataFrame)          (* model.predict(df) was called *)
| SuccessBox (s : string)
| Columns (n : nat)
| Metric (label : string) (value : fstring) (delta : option string)
| InfoBox (t : fstring)
| Subheader (s : string)
| Progress (value : float) (text : fstring)
| Expander (label : string) (body : fstring).

(** How a piece of script ends: with a value, with a raised [Exception], or
    with Streamlit's stop signal ([st.stop()]), which no [except Exception]
    clause catches and which ends the run without an error. *)
Inductive outcome (A : Type) : Type :=
| Value (a : A)
| Raised (e : Exception)
| Stopped.

Arguments Value {A} a.
Arguments Raised {A} e.
Arguments Stopped {A}.

(** A piece of script: from the elements rendered so far to its outcome and
    the elements rendered after it. *)
Definition App (A : Type) : Type := list element -> outcome A * list element.

Definition ret {A} (a : A) : App A := fun page => (Value a, page).

Definition bind {A B} (c : App A) (k : A -> App B) : App B :=
  fun page =>
    match c page with
    | (Value a, page') => k a page'
    | (Raised e, page') => (Raised e, page')
    | (Stopped, page') => (Stopped, page')
    end.

#[global] Instance App_ret : MRet App := @ret.
#[global] Instance App_bind : MBind App := fun A B k c => bind c k.

Definition render (e : element) : App unit := fun page => (Value tt, (page ++ [e])%list).

Definition raise {A} (e : Exception) : App A := fun page => (Raised e, page).

Definition st_stop {A} : App A := fun page => (Stopped, page).

(** [try: body  except Exception as e: handler e] *)
Definition try_except {A} (body : App A) (handler : Exception -> App A) : App A :=
  fun page =>
    match body page with
    | (Raised e, page') => handler e page'
    | r => r
    end.

(** Lifting a computation that returns or raises. *)
Definition lift {A} (r : Exception + A) : App A :=
  match r with
  | inl e => raise e
  | inr a => ret a
  end.

(** ** Helper functions (app.py, lines 17-41)

    Both loaders are decorated with [st.cache_resource]: within a process
    the file is read once and later runs are handed the same result, so a
    run sees the loader as a function of the disk at first load. *)

Definition load_model (disk : Disk) (path : string) : App (option Model) :=
  match model_at disk path with
  | Loaded model => mret (Some model)
  | FileNotFound =>
      render (ErrorBox [Lit "❌ Model file not found: '"; Str path;
                        Lit "'. Please ensure the file is in the correct directory."]);;
      mret None
  | LoadFailed e =>
      render (ErrorBox [Lit "❌ An error occurred while loading the model: ";
                        Str (exc_str e)]);;
      mret None
  end.

Definition load_feature_names (disk : Disk) (path : string) : App (list string) :=
  match features_at disk path with
  | Loaded features => mret features
  | FileNotFound =>
      render (ErrorBox [Lit "❌ Feature names file not found: '"; Str path; Lit "'."]);;
      mret []
  | LoadFailed e =>
      render (ErrorBox [Lit "❌ An error occurred while loading feature names: ";
                        Str (exc_str e)]);;
      mret []
  end.

(** ** The importance frame (app.py, lines 120-126) *)

Record ImportanceRow : Type := mkRow {
  Feature : string;
  Importance : float
}.

(** [pd.DataFrame({'Feature': ..., 'Importance': ...})]: pandas refuses
    columns of different lengths with a ValueError. *)
Definition pd_DataFrame (feature_names : list string) (importances : list float)
  : Exception + list ImportanceRow :=
  if Nat.eqb (length feature_names) (length importances)
  then inr (zip_with mkRow feature_names importances)
  else inl (mkException "ValueError" "All arrays must be of the same length").

(** The column 'Impact (%)' (line 126). *)
Definition Impact (row : ImportanceRow) : float := (Importance row * py_float 100)%float.

(** The text of one progress bar (line 130); [idx] is the row's position
    after [reset_index(drop=True)]. *)
Definition progress_text (idx : nat) (row : ImportanceRow) : fstring :=
  [FmtInt (Z.of_nat idx + 1); Lit ". "; Str (Feature row); Lit ": ";
   Fmt_1f (Impact row); Lit "%"].

(** Line 88: the record assembled from the form. *)
Definition input_df (f : FormState) (encoded : Z) : DataFrame :=
  prepare_input (bedrooms f) (bathrooms f) (area f) (age f) (quality f)
    (garage f) encoded.

(** [model.predict(input_df)[0]] *)
Definition call_predict (model : Model) (df : DataFrame) : App (list float) :=
  render (PredictCall df);; lift (predict model df).

Definition first_result (result : list float) : App float :=
  match result with
  | price :: _ => mret price
  | [] => raise (mkException "IndexError"
                   "index 0 is out of bounds for axis 0 with size 0")
  end.

Definition falsy {A} (l : list A) : bool :=
  match l with
  | [] => true
  | _ :: _ => false
  end.

Section Script.

(** The two library behaviours the script relies on without fixing them:
    - [sort_values]: [df.sort_values('Importance', ascending=False)] with
      pandas' default [kind] (the script passes none), followed by
      [reset_index(drop=True)];
    - [progress_check]: the argument check of [st.progress], which raises
      for a value it does not accept. *)
Variable sort_values : list ImportanceRow -> list ImportanceRow.
Variable progress_check : float -> option Exception.

Variable disk : Disk.

Definition st_progress (value : float) (text : fstring) : App unit :=
  match progress_check value with
  | Some e => raise e
  | None => render (Progress value text)
  end.

(** The loop of lines 128-130. *)
Fixpoint render_rows (idx : nat) (rows : list ImportanceRow) : App unit :=
  match rows with
  | [] => mret tt
  | row :: rest =>
      st_progress (Importance row) (progress_text idx row);;
      render_rows (S idx) rest
  end.

(** Lines 124-125. *)
Definition importance_df (feature_names : list string) (importances : list float)
  : Exception + list ImportanceRow :=
  match pd_DataFrame feature_names importances with
  | inl e => inl e
  | inr df => inr (sort_values df)
  end.

(** Lines 120-130: the importance frame and its progress bars. *)
Definition render_ranking (model : Model) (feature_names : list string)
  : App unit :=
  importances ← lift (feature_importances_ model);
  df ← lift (importance_df feature_names importances);
  render_rows 0 df.

(** The body of the [try] (lines 88-130). *)
Definition prediction_logic (model : Model) (feature_names : list string)
  (f : FormState) (encoded : Z) : App unit :=
  result ← call_predict model (input_df f encoded);
  predicted_price ← first_result result;
  render (SuccessBox "### 💰 Prediction Results");;
  render (Columns 2);;
  render (Metric "Predicted Price" [Lit "$"; Fmt_comma_0f predicted_price]
            (Some "Instant Estimate"));;
  render (Metric "Confidence Interval"
            [Lit "± $"; Fmt_comma_0f (py_float MODEL_STD_DEV)] None);;
  render (InfoBox [Lit "**📊 Expected Price Range:** $";
                   Fmt_comma_0f (lower_bound predicted_price); Lit " - $";
                   Fmt_comma_0f (upper_bound predicted_price)]);;
  render (Subheader "📈 Feature Impact Ranking");;
  render_ranking model feature_names.

(** The [except Exception as e] clause (lines 132-133). *)
Definition prediction_handler (e : Exception) : App unit :=
  render (ErrorBox [Lit "An unexpected prediction error occurred: ";
                    Str (exc_str e)]).

(** Lines 62-63. *)
Definition startup_guard (model : option Model) (feature_names : list string)
  : App Model :=
  match model with
  | None => st_stop
  | Some m => if falsy feature_names then st_stop else mret m
  end.

(** Lines 66-83: the sidebar form; returns [neighborhood_encoded]. *)
Definition input_form (f : FormState) : App Z :=
  render (SidebarHeader "📊 House Details");;
  render (Slider bedrooms_slider);;
  render (FloatSlider bathrooms_slider);;
  render (NumberInput area_input "Area must be between 500 and 20000 sqft.");;
  render (Slider age_slider);;
  render (Slider quality_slider);;
  render (Slider garage_slider);;
  render (SelectBox neighborhood_select);;
  encoded ← match neighborhood_encoded f with
            | Some v => mret v
            | None => raise (mkException "KeyError" (neighborhood f))
            end;
  render (FormSubmitButton "🎯 Predict Price");;
  mret encoded.

(** Lines 136-150. *)
Definition about_and_footer (feature_names : list string) : App unit :=
  render (Expander "ℹ️ About This Model and Data Source"
            [Lit "
    **Model Details:**
    - **Algorithm**: Optimized Random Forest
    - **Accuracy (R-squared)**: 88.2%
    - **Avg. Error Margin**: ± $";
             Fmt_comma_0f (py_float MODEL_STD_DEV);
             Lit "
    - **Training Data**: 1,460 houses (Ames Housing Dataset)
    - **Features Used**: ";
             FmtInt (Z.of_nat (length feature_names));
             Lit " key factors
    
    This application uses a pre-trained machine learning model loaded via Pickle.
    "]);;
  render (Markdown [Lit "---"]);;
  render (Markdown [Lit "<p style='text-align: center; color: grey;'>Built with Streamlit and ML | Author: M_Fayaz_Khan</p>"]).

(** One run of the script, top to bottom. *)
Definition app (f : FormState) : App unit :=
  render (PageConfig PAGE_TITLE PAGE_ICON "centered");;
  render (Title PAGE_TITLE);;
  render (Markdown [Lit "Enter your house details below to get an **instant price prediction**!"]);;
  model ← load_model disk MODEL_PATH;
  feature_names ← load_feature_names disk FEATURES_PATH;
  model ← startup_guard model feature_names;
  encoded ← input_form f;
  (if submitted f
   then try_except (prediction_logic model feature_names f encoded)
          prediction_handler
   else mret tt);;
  about_and_footer feature_names.

(** The page and the outcome of one run, starting from an empty page. *)
Definition run (f : FormState) : outcome unit * list element := app f [].

End Script.

(** ** pandas [sort_values] and numpy [argsort]

    [df.sort_values('Importance', ascending=False)] passes no [kind], so
    pandas sorts with numpy's 'quicksort'.  pandas ([nargsort]) sets the
    rows with a NaN key aside, reverses the others, argsorts them in
    ascending order, reverses the result and puts the NaN rows last; numpy's
    argsort ([aquicksort] for doubles, scalar code path) is an introsort:
    segments of more than 17 entries are partitioned around a median of
    three, the others are sorted by insertion, and a segment reached after
    too many partitions is sorted by heapsort.

    numpy sorts an array of indices by the keys they point to; here the
    entries are the rows themselves, compared by their key, so that the
    sorted array of indices followed by pandas' [take] is the sorted list of
    rows. *)

(** numpy's order on doubles ([npy::double_tag::less]): NaN is the largest. *)
Definition npy_less (a b : float) : bool :=
  (a <? b)%float || (negb (b =? b)%float && (a =? a)%float).

Section NumpyArgsort.

Context {A : Type}.
Variable less : A -> A -> bool.

(** The insertion sort at the end of [aquicksort]: every entry in turn moves
    left past the entries that are greater.  [placed] holds the entries
    already in place, the rightmost first. *)
Fixpoint shift_left (entry : A) (placed : list A) : list A :=
  match placed with
  | [] => [entry]
  | right_neighbour :: others =>
      if less entry right_neighbour
      then right_neighbour :: shift_left entry others
      else entry :: placed
  end.

Definition insertion_sort (segment : list A) : list A :=
  rev (fold_left (fun placed entry => shift_left entry placed) segment []).

(** [INTP_SWAP(a[i], a[j])] *)
Definition swap (i j : nat) (a : list A) : list A :=
  match a !! i, a !! j with
  | Some x, Some y => <[i:=y]> (<[j:=x]> a)
  | _, _ => a
  end.

(** [less(v[a[i]], v[a[j]])] *)
Definition less_at (a : list A) (i j : nat) : bool :=
  match a !! i, a !! j with
  | Some x, Some y => less x y
  | _, _ => false
  end.

(** [do ++pi; while (less(v[*pi], vp))] *)
Fixpoint scan_up (fuel : nat) (a : list A) (vp : A) (pi : nat) : nat :=
  match fuel with
  | O => S pi
  | S fuel' =>
      match a !! (S pi) with
      | Some x => if less x vp then scan_up fuel' a vp (S pi) else S pi
      | None => S pi
      end
  end.

(** [do --pj; while (less(vp, v[*pj]))] *)
Fixpoint scan_down (fuel : nat) (a : list A) (vp : A) (pj : nat) : nat :=
  match fuel with
  | O => pred pj
  | S fuel' =>
      match a !! (pred pj) with
      | Some x => if less vp x then scan_down fuel' a vp (pred pj) else pred pj
      | None => pred pj
      end
  end.

(** The [for (;;)] loop of the partition. *)
Fixpoint partition_loop (fuel : nat) (a : list A) (vp : A) (pi pj : nat)
  : list A * nat :=
  match fuel with
  | O => (a, pi)
  | S fuel' =>
      let pi' := scan_up (length a) a vp pi in
      let pj' := scan_down (length a) a vp pj in
      if Nat.leb pj' pi' then (a, pi')
      else partition_loop fuel' (swap pi' pj' a) vp pi' pj'
  end.

(** One partition step on a segment ([pl] is position 0, [pr] the last
    position): the median of three goes to the pivot position, which is
    returned with the rearranged segment. *)
Definition partition (segment : list A) : list A * nat :=
  let pr := (length segment - 1)%nat in
  let pm := Nat.div2 pr in
  let a := segment in
  let a := if less_at a pm 0 then swap pm 0 a else a in
  let a := if less_at a pr pm then swap pr pm a else a in
  let a := if less_at a pm 0 then swap pm 0 a else a in
  match a !! pm with
  | None => (a, O)
  | Some vp =>
      let a := swap pm (pr - 1) a in
      let '(a, pi) := partition_loop (length a) a vp 0 (pr - 1) in
      (swap pi (pr - 1) a, pi)
  end.

(** [a[k]] of [aheapsort], whose array is indexed from 1. *)
Definition heap_get (a : list A) (k : nat) : option A := a !! (k - 1)%nat.

Definition heap_set (a : list A) (k : nat) (x : A) : list A :=
  <[(k - 1)%nat := x]> a.

(** The inner loop of [aheapsort]: [tmp] sinks from position [i]. *)
Fixpoint sift_down (fuel : nat) (a : list A) (tmp : A) (i j n : nat) : list A :=
  match fuel with
  | O => heap_set a i tmp
  | S fuel' =>
      if Nat.leb j n then
        let j :=
          if Nat.ltb j n &&
             match heap_get a j, heap_get a (j + 1) with
             | Some x, Some y => less x y
             | _, _ => false
             end
          then (j + 1)%nat else j in
        match heap_get a j with
        | Some x =>
            if less tmp x
            then sift_down fuel' (heap_set a i x) tmp j (j + j) n
            else heap_set a i tmp
        | None => heap_set a i tmp
        end
      else heap_set a i tmp
  end.

(** [for (l = n >> 1; l > 0; --l)] *)
Fixpoint build_heap (l : nat) (a : list A) (n : nat) : list A :=
  match l with
  | O => a
  | S l' =>
      let a := match heap_get a l with
               | Some tmp => sift_down n a tmp l (l + l) n
               | None => a
               end in
      build_heap l' a n
  end.

(** [for (; n > 1;)] *)
Fixpoint drain_heap (fuel : nat) (a : list A) (n : nat) : list A :=
  match fuel with
  | O => a
  | S fuel' =>
      if Nat.ltb 1 n then
        match heap_get a n, heap_get a 1 with
        | Some tmp, Some top =>
            let a := heap_set a n top in
            let n := (n - 1)%nat in
            drain_heap fuel' (sift_down n a tmp 1 2 n) n
        | _, _ => a
        end
      else a
  end.

Definition heapsort (segment : list A) : list A :=
  let n := length segment in
  drain_heap n (build_heap (Nat.div2 n) segment n) n.

(** [SMALL_QUICKSORT] *)
Definition SMALL_QUICKSORT : nat := 16.

(** A segment of [aquicksort].  [cdepth] is the remaining depth and
    [popped] tells whether the segment was taken from the stack (the depth
    is tested then) or is the side the loop goes on with.  After a
    partition the larger side is pushed and the smaller one continues. *)
Fixpoint sort_segment (fuel : nat) (cdepth : Z) (popped : bool)
  (segment : list A) : list A :=
  match fuel with
  | O => segment
  | S fuel' =>
      if popped && (cdepth <? 0)%Z then heapsort segment
      else if Nat.ltb SMALL_QUICKSORT (length segment - 1) then
        let '(a, pi) := partition segment in
        let left := take pi a in
        let right := drop (S pi) a in
        let pivot := match a !! pi with Some x => [x] | None => [] end in
        let cdepth := (cdepth - 1)%Z in
        if Nat.ltb pi (length segment - 1 - pi)
        then sort_segment fuel' cdepth false left ++ pivot
               ++ sort_segment fuel' cdepth true right
        else sort_segment fuel' cdepth true left ++ pivot
               ++ sort_segment fuel' cdepth false right
      else insertion_sort segment
  end.

(** [npy_get_msb(num) * 2] *)
Definition initial_depth (num : nat) : Z := (2 * Z.log2 (Z.of_nat num))%Z.

Definition aquicksort (entries : list A) : list A :=
  sort_segment (length entries) (initial_depth (length entries)) true entries.

End NumpyArgsort.

(** [pandas.isna] on the key. *)
Definition isna (row : ImportanceRow) : bool := is_nan (Importance row).

Definition less_importance (a b : ImportanceRow) : bool :=
  npy_less (Importance a) (Importance b).

(** [df.sort_values('Importance', ascending=False).reset_index(drop=True)] *)
Definition pandas_sort_values (df : list ImportanceRow) : list ImportanceRow :=
  let non_nans := List.filter (fun row => negb (isna row)) df in
  let nans := List.filter isna df in
  rev (aquicksort less_importance (rev non_nans)) ++ nans.



(** The progress bars on a page, in the order they were rendered. *)
Fixpoint progress_bars (page : list element) : list (float * fstring) :=
  match page with
  | [] => []
  | Progress value text :: rest => (value, text) :: progress_bars rest
  | _ :: rest => progress_bars rest
  end.

(** The calls to [model.predict] recorded on a page. *)
Fixpoint predict_calls (page : list element) : list DataFrame :=
  match page with
  | [] => []
  | PredictCall df :: rest => df :: predict_calls rest
  | _ :: rest => predict_calls rest
  end.

(** The error boxes on a page. *)
Fixpoint error_boxes (page : list element) : list fstring :=
  match page with
  | [] => []
  | ErrorBox t :: rest => t :: error_boxes rest
  | _ :: rest => error_boxes rest
  end.

(** [st.progress] as Streamlit documents it for a float: accepted between
    0.0 and 1.0, refused otherwise. *)
Definition progress_between_0_and_1 (value : float) : option Exception :=
  if (0 <=? value)%float && (value <=? 1)%float then None
  else Some (mkException "StreamlitAPIException"
               "Progress Value has invalid value [0.0, 1.0]").

(** ** Example artifacts and form states *)

(** The form of the worked example: the defaults with "Good Area". *)
Definition example_form : FormState :=
  mkFormState 3 2 1500 10 7 2 "Good Area" true.

(** A model that predicts one price and reports three importances. *)
Definition example_model : Model :=
  mkModel (fun _ => inr [250000%float]) (inr [0.25%float; 0.5%float; 0.25%float]).

(** A model whose [predict] raises. *)
Definition failing_model : Model :=
  mkModel (fun _ => inl (mkException "ValueError" "X has 7 features, but 3 were expected"))
          (inr [0.25%float; 0.5%float; 0.25%float]).

Definition disk_with (model : unpickled Model) (features : unpickled (list string))
  : Disk :=
  mkDisk (fun path => if String.eqb path MODEL_PATH then model else FileNotFound)
         (fun path => if String.eqb path FEATURES_PATH then features else FileNotFound).

Definition example_features : list string := ["TotalArea"; "OverallQual"; "HouseAge"].

Definition example_disk : Disk :=
  disk_with (Loaded example_model) (Loaded example_features).

Definition empty_disk : Disk := disk_with FileNotFound FileNotFound.

(** The defaults of the form with a chosen neighborhood. *)
Definition form_with_neighborhood (choice : string) : FormState :=
  mkFormState 3 2 1500 10 7 2 choice true.

(** ** The parts of a rendered page

    The elements each stretch of the script renders, read off the script in
    order. *)

Definition header_elements : list element :=
  [PageConfig PAGE_TITLE PAGE_ICON "centered";
   Title PAGE_TITLE;
   Markdown [Lit "Enter your house details below to get an **instant price prediction**!"]].

Definition form_elements : list element :=
  [SidebarHeader "📊 House Details";
   Slider bedrooms_slider;
   FloatSlider bathrooms_slider;
   NumberInput area_input "Area must be between 500 and 20000 sqft.";
   Slider age_slider;
   Slider quality_slider;
   Slider garage_slider;
   SelectBox neighborhood_select;
   FormSubmitButton "🎯 Predict Price"].

Definition result_elements (predicted_price : float) : list element :=
  [SuccessBox "### 💰 Prediction Results";
   Columns 2;
   Metric "Predicted Price" [Lit "$"; Fmt_comma_0f predicted_price]
     (Some "Instant Estimate");
   Metric "Confidence Interval" [Lit "± $"; Fmt_comma_0f (py_float MODEL_STD_DEV)] None;
   InfoBox [Lit "**📊 Expected Price Range:** $";
            Fmt_comma_0f (lower_bound predicted_price); Lit " - $";
            Fmt_comma_0f (upper_bound predicted_price)];
   Subheader "📈 Feature Impact Ranking"].

Definition prediction_error_box (e : Exception) : element :=
  ErrorBox [Lit "An unexpected prediction error occurred: "; Str (exc_str e)].

Definition footer_elements (feature_names : list string) : list element :=
  [Expander "ℹ️ About This Model and Data Source"
     [Lit "
    **Model Details:**
    - **Algorithm**: Optimized Random Forest
    - **Accuracy (R-squared)**: 88.2%
    - **Avg. Error Margin**: ± $";
      Fmt_comma_0f (py_float MODEL_STD_DEV);
      Lit "
    - **Training Data**: 1,460 houses (Ames Housing Dataset)
    - **Features Used**: ";
      FmtInt (Z.of_nat (length feature_names));
      Lit " key factors
    
    This application uses a pre-trained machine learning model loaded via Pickle.
    "];
   Markdown [Lit "---"];
   Markdown [Lit "<p style='text-align: center; color: grey;'>Built with Streamlit and ML | Author: M_Fayaz_Khan</p>"]].

(** The progress bars the loop renders for [rows] before [st.progress]
    refuses one, and how the loop ends. *)
Fixpoint rendered_bars (progress_check : float -> option Exception) (idx : nat)
  (rows : list ImportanceRow) : list element :=
  match rows with
  | [] => []
  | row :: rest =>
      match progress_check (Importance row) with
      | Some _ => []
      | None => Progress (Importance row) (progress_text idx row)
                  :: rendered_bars progress_check (S idx) rest
      end
  end.

Fixpoint rows_outcome (progress_check : float -> option Exception)
  (rows : list ImportanceRow) : outcome unit :=
  match rows with
  | [] => Value tt
  | row :: rest =>
      match progress_check (Importance row) with
      | Some e => Raised e
      | None => rows_outcome progress_check rest
      end
  end.

(** Each interaction re-runs the script from the top with the widgets'
    current values; the cached artifacts are read-only, so the runs of a
    session share nothing else. *)
Definition session (sort_values : list ImportanceRow -> list ImportanceRow)
  (progress_check : float -> option Exception) (disk : Disk)
  (interactions : list FormState) : list (outcome unit * list element) :=
  map (run sort_values progress_check disk) interactions.

Definition model_missing_box : element :=
  ErrorBox [Lit "❌ Model file not found: '"; Str MODEL_PATH;
            Lit "'. Please ensure the file is in the correct directory."].

Definition features_missing_box : element :=
  ErrorBox [Lit "❌ Feature names file not found: '"; Str FEATURES_PATH; Lit "'."].

(** The progress bars of the loop for [rows], numbered from [first]: the row
    at position [i] gets the text of rank [first + i + 1]. *)
Definition ranking_bars (first : nat) (rows : list ImportanceRow) : list element :=
  imap (fun i row => Progress (Importance row) (progress_text (first + i) row))
       rows.

(** [st.progress] accepts the importance of every row. *)
Definition all_accepted (progress_check : float -> option Exception)
  (rows : list ImportanceRow) : Prop :=
  Forall (fun row => progress_check (Importance row) = None) rows.

Definition model_load_failed_box (e : Exception) : element :=
  ErrorBox [Lit "❌ An error occurred while loading the model: "; Str (exc_str e)].

Definition features_load_failed_box (e : Exception) : element :=
  ErrorBox [Lit "❌ An error occurred while loading feature names: ";
            Str (exc_str e)].

(** The widgets of the form that are rendered before line 80 looks the
    neighborhood up. *)
Definition form_widgets : list element :=
  [SidebarHeader "📊 House Details";
   Slider bedrooms_slider;
   FloatSlider bathrooms_slider;
   NumberInput area_input "Area must be between 500 and 20000 sqft.";
   Slider age_slider;
   Slider quality_slider;
   Slider garage_slider;
   SelectBox neighborhood_select].

(** A model that predicts a price but reports two importances. *)
Definition two_importances_model : Model :=
  mkModel (fun _ => inr [250000%float]) (inr [0.5%float; 0.5%float]).

(** A model that predicts nothing. *)
Definition empty_prediction_model : Model :=
  mkModel (fun _ => inr []) (inr [0.25%float; 0.5%float; 0.25%float]).

(** A model one of whose importances is negative. *)
Definition negative_importance_model : Model :=
  mkModel (fun _ => inr [250000%float]) (inr [0.25%float; 0.5%float; (-0.25)%float]).

(** A model without the attribute [feature_importances_]. *)
Definition no_importances_model : Model :=
  mkModel (fun _ => inr [250000%float])
          (inl (mkException "AttributeError"
                  "'LinearRegression' object has no attribute 'feature_importances_'")).

(** The example form, not submitted. *)
Definition idle_form : FormState :=
  mkFormState 3 2 1500 10 7 2 "Good Area" false.

(** ** What the form hands to the script (app.py, lines 70-76)

    Every widget call returns the widget's current value and the script
    binds it to a variable: the seven calls bind, in this order, [bedrooms],
    [bathrooms], [area], [age], [quality], [garage] and [neighborhood]. *)

Inductive widget_value : Type :=
| IntValue (z : Z)
| FloatValue (q : Q)
| Choice (s : string).

Definition form_values (f : FormState) : list widget_value :=
  [IntValue (bedrooms f); FloatValue (bathrooms f); IntValue (area f);
   IntValue (age f); IntValue (quality f); IntValue (garage f);
   Choice (neighborhood f)].

(** The input widgets on a page, in the order they were rendered. *)
Fixpoint widgets (page : list element) : list element :=
  match page with
  | [] => []
  | Slider w :: rest => Slider w :: widgets rest
  | FloatSlider w :: rest => FloatSlider w :: widgets rest
  | NumberInput w help :: rest => NumberInput w help :: widgets rest
  | SelectBox w :: rest => SelectBox w :: widgets rest
  | _ :: rest => widgets rest
  end.

(** A rendered widget can hand back the value [v]. *)
Definition widget_yields (control : element) (v : widget_value) : Prop :=
  match control, v with
  | Slider w, IntValue z => int_widget_yields w z
  | NumberInput w _, IntValue z => int_widget_yields w z
  | FloatSlider w, FloatValue q => float_widget_yields w q
  | SelectBox w, Choice s => select_widget_yields w s
  | _, _ => False
  end.

(** The form state [f] is one the widgets rendered on [page] can produce:
    the page holds one widget for each variable of the form, in the order
    of the script, and each widget can hand back the value of its
    variable. *)
Definition admitted_by (page : list element) (f : FormState) : Prop :=
  Forall2 widget_yields (widgets page) (form_values f).

(** A feature-name file that holds an empty list, and one that is missing,
    next to a model that loads. *)
Definition empty_features_disk : Disk := disk_with (Loaded example_model) (Loaded []).

Definition missing_features_disk : Disk := disk_with (Loaded example_model) FileNotFound.





(** ** The value of a float

    A finite binary64 float is a rational number: zero, or a signed
    mantissa times a power of two.  Infinities and NaN have no value. *)

Definition SF2Q (x : spec_float) : option Q :=
  match x with
  | S754_zero _ => Some 0%Q
  | S754_finite s m e => Some (inject_Z (cond_Zopp s (Z.pos m)) * 2 ^ e)%Q
  | _ => None
  end.

Definition float_value (x : float) : option Q := SF2Q (Prim2SF x).

(** The exact sum of a column of finite floats. *)
Fixpoint float_sum (column : list float) : option Q :=
  match column with
  | [] => Some 0%Q
  | x :: rest =>
      match float_value x, float_sum rest with
      | Some v, Some s => Some (v + s)%Q
      | _, _ => None
      end
  end.

(** The price range an element shows (the info box of line 108), and the
    price ranges on a page. *)
Definition price_band (e : element) : list (float * float) :=
  match e with
  | InfoBox [Lit _; Fmt_comma_0f lower; Lit _; Fmt_comma_0f upper] =>
      [(lower, upper)]
  | _ => []
  end.

Definition price_bands (page : list element) : list (float * float) :=
  flat_map price_band page.

(** The percentages shown by the progress bars of a page (the number the
    text of line 130 formats with one decimal). *)
Definition bar_percentage (bar : float * fstring) : list float :=
  match snd bar with
  | [FmtInt _; Lit _; Str _; Lit _; Fmt_1f percentage; Lit _] => [percentage]
  | _ => []
  end.

Definition displayed_percentages (page : list element) : list float :=
  flat_map bar_percentage (progress_bars page).

(** A model whose estimate is the double nearest to 250000.1. *)
Definition fractional_price : float := 0x1.e8480cccccccdp+17%float.

Definition fractional_price_model : Model :=
  mkModel (fun _ => inr [fractional_price])
          (inr [0.25%float; 0.5%float; 0.25%float]).

Definition fractional_price_disk : Disk :=
  disk_with (Loaded fractional_price_model) (Loaded example_features).

(** Two importances for three feature names. *)
Definition two_importances_disk : Disk :=
  disk_with (Loaded two_importances_model) (Loaded example_features).

(** A model with two features whose importances, 1.5 and -0.5, sum to 1. *)
Definition out_of_range_model : Model :=
  mkModel (fun _ => inr [250000%float]) (inr [1.5%float; (-0.5)%float]).

Definition out_of_range_disk : Disk :=
  disk_with (Loaded out_of_range_model) (Loaded ["TotalArea"; "OverallQual"]).

(** * Properties *)

(** ** The script monad *)

Lemma bind_value {A B} (c : App A) (k : A -> App B) page a page' :
  c page = (Value a, page') -> (c ≫= k) page = k a page'.
Proof. intros H. unfold mbind, App_bind, bind. now rewrite H. Qed.

Lemma bind_raised {A B} (c : App A) (k : A -> App B) page e page' :
  c page = (Raised e, page') -> (c ≫= k) page = (Raised e, page').
Proof. intros H. unfold mbind, App_bind, bind. now rewrite H. Qed.

Lemma bind_stopped {A B} (c : App A) (k : A -> App B) page page' :
  c page = (Stopped, page') -> (c ≫= k) page = (Stopped, page').
Proof. intros H. unfold mbind, App_bind, bind. now rewrite H. Qed.

Lemma render_then {B} (e : element) (k : unit -> App B) page :
  (render e ≫= k) page = k tt (page ++ [e]).
Proof. reflexivity. Qed.

Lemma predict_calls_app l1 l2 :
  predict_calls (l1 ++ l2) = predict_calls l1 ++ predict_calls l2.
Proof.
  induction l1 as [|x l1 IH]; [reflexivity|].
  destruct x; simpl; rewrite IH; reflexivity.
Qed.

Lemma progress_bars_app l1 l2 :
  progress_bars (l1 ++ l2) = progress_bars l1 ++ progress_bars l2.
Proof.
  induction l1 as [|x l1 IH]; [reflexivity|].
  destruct x; simpl; rewrite IH; reflexivity.
Qed.

Lemma error_boxes_app l1 l2 :
  error_boxes (l1 ++ l2) = error_boxes l1 ++ error_boxes l2.
Proof.
  induction l1 as [|x l1 IH]; [reflexivity|].
  destruct x; simpl; rewrite IH; reflexivity.
Qed.

(** ** The input record *)

Lemma prepare_input_shape b ba ar ag q g n :
  columns (prepare_input b ba ar ag q g n) = INPUT_COLUMNS /\
  length (prepare_input b ba ar ag q g n) = 7%nat /\
  n_rows (prepare_input b ba ar ag q g n) = Some 1%nat /\
  NoDup (columns (prepare_input b ba ar ag q g n)).
Proof.
  repeat split; try reflexivity.
  change (NoDup INPUT_COLUMNS). unfold INPUT_COLUMNS.
  repeat (constructor; [intros H; repeat (apply elem_of_cons in H as [H|H]; [discriminate H|]); now apply elem_of_nil in H|]).
  constructor.
Qed.

Lemma example_form_reachable : reachable example_form.
Proof.
  unfold reachable, int_widget_yields, float_widget_yields, select_widget_yields.
  simpl.
  split; [lia|]. split.
  { split; [now compute|]. split; [now compute|].
    exists 3%Z. split; [lia|reflexivity]. }
  split; [lia|]. split; [lia|]. split; [lia|]. split; [lia|tauto].
Qed.

(** C1 (as it holds of the script): for every input tuple, the record assembled by
    [prepare_input] has the fixed seven fields of its dict literal, in the
    order written, whatever feature-name list was loaded; its fields and
    their order match a feature-name list exactly when that list is this
    fixed sequence. *)
Theorem prepare_input_columns_fixed
  (b : Z) (ba : Q) (ar ag q g n : Z) (feature_names : list string) :
  columns (prepare_input b ba ar ag q g n) = INPUT_COLUMNS /\
  (columns (prepare_input b ba ar ag q g n) = feature_names <->
   feature_names = INPUT_COLUMNS).
Proof.
  split; [reflexivity|].
  split; intros H; [now rewrite <- H | now rewrite H].
Qed.

(** C1, counterexample: with the feature-name file holding
    [example_features] (a list the loader returns and the startup guard lets
    through) and the reachable form [example_form], the fields of the
    assembled record are not the loaded feature-name list. *)
Lemma prepare_input_columns_differ_from_loaded :
  reachable example_form /\
  load_feature_names example_disk FEATURES_PATH [] = (Value example_features, []) /\
  falsy example_features = false /\
  columns (prepare_input (bedrooms example_form) (bathrooms example_form)
             (area example_form) (age example_form) (quality example_form)
             (garage example_form) 10)
  <> example_features.
Proof.
  split; [exact example_form_reachable|].
  split; [reflexivity|split; [reflexivity|discriminate]].
Qed.

(** ** The form and the neighborhood encoding *)

Lemma form_with_neighborhood_reachable choice :
  In choice (sw_options neighborhood_select) ->
  reachable (form_with_neighborhood choice).
Proof.
  intros Hin.
  unfold reachable, int_widget_yields, float_widget_yields, select_widget_yields.
  simpl.
  split; [lia|]. split.
  { split; [now compute|]. split; [now compute|].
    exists 3%Z. split; [lia|reflexivity]. }
  split; [lia|]. split; [lia|]. split; [lia|]. split; [lia|exact Hin].
Qed.

Lemma reachable_encoded f :
  reachable f ->
  exists v, neighborhood_encoded f = Some v /\ (v = 5 \/ v = 10 \/ v = 15)%Z.
Proof.
  intros (_ & _ & _ & _ & _ & _ & Hn).
  unfold select_widget_yields in Hn. simpl in Hn. unfold neighborhood_encoded.
  destruct Hn as [<-|[<-|[<-|[]]]].
  - exists 5%Z. split; [reflexivity|lia].
  - exists 10%Z. split; [reflexivity|lia].
  - exists 15%Z. split; [reflexivity|lia].
Qed.

(** C4: the three choices encode to 5, 10 and 15; in every reachable form
    state the lookup succeeds with one of these three values; and a value is
    the encoding of some reachable form state exactly when it is 5, 10 or
    15. *)
Theorem neighborhood_encoding_closed :
  neighborhood_map !! "Average Area" = Some 5%Z /\
  neighborhood_map !! "Good Area" = Some 10%Z /\
  neighborhood_map !! "Premium Area" = Some 15%Z /\
  (forall f, reachable f ->
     exists v, neighborhood_encoded f = Some v /\ (v = 5 \/ v = 10 \/ v = 15)%Z) /\
  (forall v, (exists f, reachable f /\ neighborhood_encoded f = Some v) <->
             (v = 5 \/ v = 10 \/ v = 15)%Z).
Proof.
  split; [reflexivity|]. split; [reflexivity|]. split; [reflexivity|].
  split; [exact reachable_encoded|].
  intros v. split.
  - intros (f & Hf & Hv). destruct (reachable_encoded f Hf) as (w & Hw & Hrange).
    rewrite Hv in Hw. now inversion Hw; subst.
  - intros [-> | [-> | ->]].
    + exists (form_with_neighborhood "Average Area"). split; [|reflexivity].
      apply form_with_neighborhood_reachable. simpl. tauto.
    + exists (form_with_neighborhood "Good Area"). split; [|reflexivity].
      apply form_with_neighborhood_reachable. simpl. tauto.
    + exists (form_with_neighborhood "Premium Area"). split; [|reflexivity].
      apply form_with_neighborhood_reachable. simpl. tauto.
Qed.

Lemma neighborhood_encoding_closed_witness :
  reachable example_form /\
  exists v, neighborhood_encoded example_form = Some v /\
            (v = 5 \/ v = 10 \/ v = 15)%Z.
Proof.
  split; [exact example_form_reachable|].
  apply (proj1 (proj2 (proj2 (proj2 neighborhood_encoding_closed)))).
  exact example_form_reachable.
Defined.

(** ** The importance frame *)

Lemma frame_columns (feature_names : list string) : forall importances : list float,
  length feature_names = length importances ->
  map Feature (zip_with mkRow feature_names importances) = feature_names /\
  map Importance (zip_with mkRow feature_names importances) = importances.
Proof.
  induction feature_names as [|name names IH]; intros [|x importances] Hlen;
    try discriminate Hlen; simpl; [split; reflexivity|].
  injection Hlen as Hlen. destruct (IH importances Hlen) as [-> ->].
  split; reflexivity.
Qed.

(** One progress bar is rendered per row when [st.progress] accepts every
    value. *)
Lemma rendered_bars_length (progress_check : float -> option Exception)
  (rows : list ImportanceRow) : forall idx,
  rows_outcome progress_check rows = Value tt ->
  length (rendered_bars progress_check idx rows) = length rows.
Proof.
  induction rows as [|row rows IH]; intros idx Hok; simpl in *; [reflexivity|].
  destruct (progress_check (Importance row)); [discriminate Hok|].
  simpl. now rewrite IH.
Qed.

(** ** One run of the script *)

Section RunFacts.

Variable sort_values : list ImportanceRow -> list ImportanceRow.
Variable progress_check : float -> option Exception.
Variable disk : Disk.

Lemma render_rows_spec rows : forall idx page,
  render_rows progress_check idx rows page
  = (rows_outcome progress_check rows,
     page ++ rendered_bars progress_check idx rows).
Proof.
  induction rows as [|row rows IH]; intros idx page; simpl.
  - unfold mret, App_ret, ret. now rewrite app_nil_r.
  - unfold st_progress.
    destruct (progress_check (Importance row)) as [e|].
    + unfold mbind, App_bind, bind, raise. now rewrite app_nil_r.
    + rewrite render_then, IH. now rewrite <- app_assoc.
Qed.

Lemma about_and_footer_spec feature_names page :
  about_and_footer feature_names page
  = (Value tt, page ++ footer_elements feature_names).
Proof.
  unfold about_and_footer. rewrite !render_then. unfold render.
  now rewrite <- !app_assoc.
Qed.

Lemma input_form_spec f encoded page :
  neighborhood_encoded f = Some encoded ->
  input_form f page = (Value encoded, page ++ form_elements).
Proof.
  intros Henc. unfold input_form. rewrite !render_then, Henc.
  unfold mbind, App_bind, bind, mret, App_ret, ret, render.
  now rewrite <- !app_assoc.
Qed.

Lemma load_model_spec path page :
  load_model disk path page
  = match model_at disk path with
    | Loaded model => (Value (Some model), page)
    | FileNotFound =>
        (Value None,
         page ++ [ErrorBox [Lit "❌ Model file not found: '"; Str path;
                            Lit "'. Please ensure the file is in the correct directory."]])
    | LoadFailed e =>
        (Value None,
         page ++ [ErrorBox [Lit "❌ An error occurred while loading the model: ";
                            Str (exc_str e)]])
    end.
Proof. unfold load_model. now destruct (model_at disk path). Qed.

Lemma load_feature_names_spec path page :
  load_feature_names disk path page
  = match features_at disk path with
    | Loaded features => (Value features, page)
    | FileNotFound =>
        (Value [],
         page ++ [ErrorBox [Lit "❌ Feature names file not found: '"; Str path;
                            Lit "'."]])
    | LoadFailed e =>
        (Value [],
         page ++ [ErrorBox [Lit "❌ An error occurred while loading feature names: ";
                            Str (exc_str e)]])
    end.
Proof. unfold load_feature_names. now destruct (features_at disk path). Qed.

(** Once both artifacts are loaded and the guard is passed, the run is the
    form, the prediction on submission, and the footer. *)
Lemma run_started model feature_names f encoded :
  model_at disk MODEL_PATH = Loaded model ->
  features_at disk FEATURES_PATH = Loaded feature_names ->
  falsy feature_names = false ->
  neighborhood_encoded f = Some encoded ->
  run sort_values progress_check disk f
  = ((if submitted f
      then try_except
             (prediction_logic sort_values progress_check model feature_names
                f encoded)
             prediction_handler
      else mret tt) ≫= fun _ => about_and_footer feature_names)
      (header_elements ++ form_elements).
Proof.
  intros Hm Hf Hne Henc. unfold run, app. rewrite !render_then.
  erewrite bind_value; [|rewrite load_model_spec, Hm; reflexivity].
  erewrite bind_value; [|rewrite load_feature_names_spec, Hf; reflexivity].
  unfold startup_guard. rewrite Hne.
  erewrite bind_value; [|reflexivity].
  erewrite bind_value; [|apply input_form_spec; exact Henc].
  reflexivity.
Qed.

Lemma predict_calls_rendered_bars rows : forall idx,
  predict_calls (rendered_bars progress_check idx rows) = [].
Proof.
  induction rows as [|row rows IH]; intros idx; simpl; [reflexivity|].
  destruct (progress_check (Importance row)); simpl; [reflexivity|apply IH].
Qed.

(** The ranking only adds progress bars to the page, and ends by returning
    or by raising. *)
Lemma render_ranking_spec model feature_names page :
  exists bars,
    snd (render_ranking sort_values progress_check model feature_names page)
      = page ++ bars /\
    predict_calls bars = [] /\
    fst (render_ranking sort_values progress_check model feature_names page)
      <> Stopped.
Proof.
  unfold render_ranking, lift.
  destruct (feature_importances_ model) as [e|importances].
  { exists []. rewrite app_nil_r. repeat split. discriminate. }
  erewrite bind_value; [|reflexivity].
  destruct (importance_df sort_values feature_names importances) as [e|df].
  { exists []. rewrite app_nil_r. repeat split. discriminate. }
  erewrite bind_value; [|reflexivity].
  rewrite render_rows_spec. simpl.
  exists (rendered_bars progress_check 0 df).
  split; [reflexivity|]. split; [apply predict_calls_rendered_bars|].
  clear. induction df as [|row df IH]; simpl; [discriminate|].
  destruct (progress_check (Importance row)); [discriminate|exact IH].
Qed.

Lemma call_predict_spec model df page :
  call_predict model df page
  = (match predict model df with
     | inl e => Raised e
     | inr result => Value result
     end, page ++ [PredictCall df]).
Proof.
  unfold call_predict. rewrite render_then. unfold lift.
  now destruct (predict model df).
Qed.

(** The [try] statement when [predict] raises [e]. *)
Lemma try_predict_raises model feature_names f encoded e page :
  predict model (input_df f encoded) = inl e ->
  try_except
    (prediction_logic sort_values progress_check model feature_names f encoded)
    prediction_handler page
  = (Value tt, page ++ [PredictCall (input_df f encoded); prediction_error_box e]).
Proof.
  intros Hp. unfold try_except, prediction_logic.
  erewrite bind_raised; [|rewrite call_predict_spec, Hp; reflexivity].
  unfold prediction_handler, render, prediction_error_box.
  now rewrite <- app_assoc.
Qed.

(** The [try] statement when [predict] returns an array that starts with
    [price]. *)
Lemma try_predict_returns model feature_names f encoded price rest page :
  predict model (input_df f encoded) = inr (price :: rest) ->
  exists shown,
    try_except
      (prediction_logic sort_values progress_check model feature_names f encoded)
      prediction_handler page
    = (Value tt,
       page ++ PredictCall (input_df f encoded) :: result_elements price ++ shown)
    /\ predict_calls shown = [].
Proof.
  intros Hp.
  destruct (render_ranking_spec model feature_names
              (page ++ PredictCall (input_df f encoded) :: result_elements price))
    as (bars & Hpage & Hcalls & Hstop).
  unfold try_except, prediction_logic.
  erewrite bind_value; [|rewrite call_predict_spec, Hp; reflexivity].
  erewrite bind_value; [|reflexivity].
  rewrite !render_then, <- !app_assoc.
  unfold result_elements in *. cbn [app] in *.
  destruct (render_ranking sort_values progress_check model feature_names _)
    as [[[]|e|] page'] eqn:E; cbn [fst snd] in Hpage, Hstop; subst page'.
  - exists bars. split; [|exact Hcalls].
    rewrite <- app_assoc. reflexivity.
  - exists (bars ++ [prediction_error_box e]). split.
    + unfold prediction_handler, render, prediction_error_box.
      rewrite <- !app_assoc. reflexivity.
    + now rewrite predict_calls_app, Hcalls.
  - now contradiction Hstop.
Qed.

(** The [try] statement never lets an exception out and calls [predict]
    exactly once, on the assembled record. *)
Lemma try_total model feature_names f encoded page :
  exists shown,
    try_except
      (prediction_logic sort_values progress_check model feature_names f encoded)
      prediction_handler page
    = (Value tt, page ++ PredictCall (input_df f encoded) :: shown)
    /\ predict_calls shown = [].
Proof.
  destruct (predict model (input_df f encoded)) as [e|[|price rest]] eqn:Hp.
  - exists [prediction_error_box e]. split; [|reflexivity].
    now apply try_predict_raises.
  - eexists. split; [|shelve].
    unfold try_except, prediction_logic.
    erewrite bind_value; [|rewrite call_predict_spec, Hp; reflexivity].
    erewrite bind_raised; [|reflexivity].
    unfold prediction_handler, render.
    rewrite <- app_assoc. reflexivity.
    Unshelve. reflexivity.
  - destruct (try_predict_returns model feature_names f encoded price rest page Hp)
      as (shown & Hrun & Hcalls).
    exists (result_elements price ++ shown). split; [exact Hrun|].
    now rewrite predict_calls_app, Hcalls.
Qed.

(** After a passed startup the run always completes: the [try] statement
    leaves no exception behind and the footer is rendered. *)
Lemma run_completes model feature_names f encoded :
  model_at disk MODEL_PATH = Loaded model ->
  features_at disk FEATURES_PATH = Loaded feature_names ->
  falsy feature_names = false ->
  neighborhood_encoded f = Some encoded ->
  exists shown,
    run sort_values progress_check disk f
    = (Value tt,
       header_elements ++ form_elements ++ shown ++ footer_elements feature_names)
    /\ predict_calls shown
       = (if submitted f then [input_df f encoded] else []).
Proof.
  intros Hm Hf Hne Henc.
  rewrite (run_started model feature_names f encoded Hm Hf Hne Henc).
  destruct (submitted f).
  - destruct (try_total model feature_names f encoded
                (header_elements ++ form_elements)) as (shown & Htry & Hcalls).
    exists (PredictCall (input_df f encoded) :: shown). split.
    + erewrite bind_value; [|exact Htry].
      rewrite about_and_footer_spec, <- !app_assoc. reflexivity.
    + simpl. now rewrite Hcalls.
  - exists []. split; [|reflexivity].
    erewrite bind_value; [|reflexivity].
    rewrite about_and_footer_spec, <- !app_assoc. reflexivity.
Qed.

(** A run whose model artifact did not load stops at the guard. *)
Lemma run_without_model f :
  (forall model, model_at disk MODEL_PATH <> Loaded model) ->
  run sort_values progress_check disk f
  = (Stopped,
     snd (load_feature_names disk FEATURES_PATH
            (snd (load_model disk MODEL_PATH header_elements)))).
Proof.
  intros Hm. unfold run, app. rewrite !render_then.
  change (([] ++ [PageConfig _ _ _]) ++ _ ++ _) with header_elements.
  rewrite load_model_spec, load_feature_names_spec.
  unfold mbind at 1, App_bind at 1, bind at 1. rewrite load_model_spec.
  destruct (model_at disk MODEL_PATH) as [|e|model];
    [| |now contradiction (Hm model)].
  - unfold mbind at 1, App_bind at 1, bind at 1. rewrite load_feature_names_spec.
    now destruct (features_at disk FEATURES_PATH).
  - unfold mbind at 1, App_bind at 1, bind at 1. rewrite load_feature_names_spec.
    now destruct (features_at disk FEATURES_PATH).
Qed.

(** A run whose feature-name list is empty stops at the guard. *)
Lemma run_without_features f :
  fst (load_feature_names disk FEATURES_PATH []) = Value [] ->
  run sort_values progress_check disk f
  = (Stopped,
     snd (load_feature_names disk FEATURES_PATH
            (snd (load_model disk MODEL_PATH header_elements)))).
Proof.
  intros Hf. unfold run, app. rewrite !render_then.
  change (([] ++ [PageConfig _ _ _]) ++ _ ++ _) with header_elements.
  rewrite load_feature_names_spec in Hf.
  rewrite load_model_spec, load_feature_names_spec.
  unfold mbind at 1, App_bind at 1, bind at 1. rewrite load_model_spec.
  destruct (model_at disk MODEL_PATH) as [|e|model];
    unfold mbind at 1, App_bind at 1, bind at 1;
    rewrite load_feature_names_spec;
    destruct (features_at disk FEATURES_PATH) as [|e'|features];
    try reflexivity.
  simpl in Hf. injection Hf as ->. reflexivity.
Qed.

End RunFacts.

(** ** The claims about a run *)

(** C6: when the model file is missing, [load_model] shows an error box and
    returns [None], and the run stops at the guard: its outcome is the stop
    signal, not an exception, and the page holds the header, that error box
    and whatever [load_feature_names] reported, and no form.  When the
    feature-name file is missing, [load_feature_names] shows an error box and
    returns the empty list, and the run stops at the guard the same way. *)
Theorem missing_artifact_halts
  (sort_values : list ImportanceRow -> list ImportanceRow)
  (progress_check : float -> option Exception) (disk : Disk) (f : FormState) :
  (model_at disk MODEL_PATH = FileNotFound ->
   (forall page,
      load_model disk MODEL_PATH page = (Value None, page ++ [model_missing_box])) /\
   run sort_values progress_check disk f
   = (Stopped,
      header_elements ++ model_missing_box
        :: snd (load_feature_names disk FEATURES_PATH []))) /\
  (features_at disk FEATURES_PATH = FileNotFound ->
   (forall page,
      load_feature_names disk FEATURES_PATH page
      = (Value [], page ++ [features_missing_box])) /\
   run sort_values progress_check disk f
   = (Stopped,
      header_elements ++ snd (load_model disk MODEL_PATH [])
        ++ [features_missing_box])).
Proof.
  split.
  - intros Hm. split.
    + intros page. now rewrite load_model_spec, Hm.
    + rewrite run_without_model by (intros model; rewrite Hm; discriminate).
      rewrite load_model_spec, Hm. cbn [snd].
      rewrite !load_feature_names_spec.
      destruct (features_at disk FEATURES_PATH); cbn [snd];
        now rewrite <- ?app_assoc, ?app_nil_r.
  - intros Hf. split.
    + intros page. now rewrite load_feature_names_spec, Hf.
    + rewrite run_without_features by (now rewrite load_feature_names_spec, Hf).
      rewrite load_feature_names_spec, Hf. cbn [snd].
      rewrite !load_model_spec.
      destruct (model_at disk MODEL_PATH); cbn [snd];
        now rewrite <- ?app_assoc, ?app_nil_r.
Qed.

Lemma missing_artifact_halts_witness :
  model_at empty_disk MODEL_PATH = FileNotFound /\
  features_at empty_disk FEATURES_PATH = FileNotFound /\
  run pandas_sort_values progress_between_0_and_1 empty_disk example_form
  = (Stopped, header_elements ++ [model_missing_box; features_missing_box]).
Proof.
  split; [reflexivity|]. split; [reflexivity|].
  exact (proj2 (proj1 (missing_artifact_halts pandas_sort_values
                         progress_between_0_and_1 empty_disk example_form)
                  eq_refl)).
Defined.

(** C7: whenever [predict] raises an exception [e], the run completes
    instead of ending in [e]: the page shows the form, the one call to
    [predict], an error box with the fixed text followed by [str(e)], and
    the footer.  [predict] is called once (no retry), nothing of a
    prediction is shown (no fallback), and the following interaction of the
    session is an ordinary run of the script on the next form state. *)
Theorem prediction_error_is_caught
  (sort_values : list ImportanceRow -> list ImportanceRow)
  (progress_check : float -> option Exception) (disk : Disk)
  (model : Model) (feature_names : list string)
  (f : FormState) (encoded : Z) (e : Exception) :
  model_at disk MODEL_PATH = Loaded model ->
  features_at disk FEATURES_PATH = Loaded feature_names ->
  falsy feature_names = false ->
  neighborhood_encoded f = Some encoded ->
  submitted f = true ->
  predict model (input_df f encoded) = inl e ->
  run sort_values progress_check disk f
  = (Value tt,
     header_elements ++ form_elements
       ++ [PredictCall (input_df f encoded);
           ErrorBox [Lit "An unexpected prediction error occurred: ";
                     Str (exc_str e)]]
       ++ footer_elements feature_names) /\
  predict_calls (snd (run sort_values progress_check disk f))
  = [input_df f encoded] /\
  error_boxes (snd (run sort_values progress_check disk f))
  = [[Lit "An unexpected prediction error occurred: "; Str (exc_str e)]] /\
  In (FormSubmitButton "🎯 Predict Price")
     (snd (run sort_values progress_check disk f)) /\
  (forall next later,
     session sort_values progress_check disk (f :: next :: later)
     = run sort_values progress_check disk f
         :: run sort_values progress_check disk next
         :: session sort_values progress_check disk later).
Proof.
  intros Hm Hf Hne Henc Hsub Hp.
  assert (Hrun : run sort_values progress_check disk f
                 = (Value tt,
                    header_elements ++ form_elements
                      ++ [PredictCall (input_df f encoded); prediction_error_box e]
                      ++ footer_elements feature_names)).
  { rewrite (run_started sort_values progress_check disk model feature_names
               f encoded Hm Hf Hne Henc), Hsub.
    erewrite bind_value; [|apply try_predict_raises; exact Hp].
    rewrite about_and_footer_spec, <- !app_assoc. reflexivity. }
  split; [exact Hrun|].
  split; [|split; [|split; [|reflexivity]]]; rewrite Hrun; cbn [snd].
  - rewrite !predict_calls_app. reflexivity.
  - rewrite !error_boxes_app. reflexivity.
  - apply in_or_app. right. apply in_or_app. left.
    unfold form_elements. simpl. tauto.
Qed.

Lemma prediction_error_is_caught_witness :
  predict failing_model (input_df example_form 10)
  = inl (mkException "ValueError" "X has 7 features, but 3 were expected") /\
  fst (run pandas_sort_values progress_between_0_and_1
         (disk_with (Loaded failing_model) (Loaded example_features))
         example_form)
  = Value tt /\
  error_boxes
    (snd (run pandas_sort_values progress_between_0_and_1
            (disk_with (Loaded failing_model) (Loaded example_features))
            example_form))
  = [[Lit "An unexpected prediction error occurred: ";
      Str "X has 7 features, but 3 were expected"]].
Proof.
  pose proof (prediction_error_is_caught pandas_sort_values
                progress_between_0_and_1
                (disk_with (Loaded failing_model) (Loaded example_features))
                failing_model example_features example_form 10
                (mkException "ValueError" "X has 7 features, but 3 were expected")
                eq_refl eq_refl eq_refl eq_refl eq_refl eq_refl)
    as (Hrun & _ & Herr & _).
  split; [reflexivity|]. split; [now rewrite Hrun|exact Herr].
Defined.

(** C8: on a submission that passed the startup guard, [predict] is called
    exactly once, on the record assembled from the seven inputs: seven named
    fields, one row, each field holding the corresponding input; and when
    [predict] returns, the point estimate shown is the first element of what
    it returned.  For the example inputs the neighborhood encodes to 10 and
    the record has seven fields. *)
Theorem predictor_invocation
  (sort_values : list ImportanceRow -> list ImportanceRow)
  (progress_check : float -> option Exception) (disk : Disk)
  (model : Model) (feature_names : list string)
  (f : FormState) (encoded : Z) :
  model_at disk MODEL_PATH = Loaded model ->
  features_at disk FEATURES_PATH = Loaded feature_names ->
  falsy feature_names = false ->
  neighborhood_encoded f = Some encoded ->
  submitted f = true ->
  predict_calls (snd (run sort_values progress_check disk f))
  = [input_df f encoded] /\
  input_df f encoded
  = [ ("BedroomAbvGr", [PyInt (bedrooms f)]);
      ("TotalBathrooms", [PyFloat (bathrooms f)]);
      ("TotalArea", [PyInt (area f)]);
      ("HouseAge", [PyInt (age f)]);
      ("OverallQual", [PyInt (quality f)]);
      ("GarageCars", [PyInt (garage f)]);
      ("Neighborhood_encoded", [PyInt encoded]) ] /\
  length (columns (input_df f encoded)) = 7%nat /\
  NoDup (columns (input_df f encoded)) /\
  n_rows (input_df f encoded) = Some 1%nat /\
  (forall price rest,
     predict model (input_df f encoded) = inr (price :: rest) ->
     In (Metric "Predicted Price" [Lit "$"; Fmt_comma_0f price]
           (Some "Instant Estimate"))
        (snd (run sort_values progress_check disk f))) /\
  neighborhood_encoded example_form = Some 10%Z /\
  columns (input_df example_form 10) = INPUT_COLUMNS.
Proof.
  intros Hm Hf Hne Henc Hsub.
  split; [|split; [reflexivity|split; [reflexivity|split; [|split; [reflexivity|split; [|split; reflexivity]]]]]].
  - destruct (run_completes sort_values progress_check disk model feature_names
                f encoded Hm Hf Hne Henc) as (shown & Hrun & Hcalls).
    rewrite Hrun, Hsub in *. cbn [snd].
    rewrite !predict_calls_app, Hcalls. reflexivity.
  - apply prepare_input_shape.
  - intros price rest Hp.
    rewrite (run_started sort_values progress_check disk model feature_names
               f encoded Hm Hf Hne Henc), Hsub.
    destruct (try_predict_returns sort_values progress_check model feature_names
                f encoded price rest (header_elements ++ form_elements) Hp)
      as (shown & Htry & _).
    erewrite bind_value; [|exact Htry].
    rewrite about_and_footer_spec. cbn [snd].
    apply in_or_app. left. apply in_or_app. right. right.
    apply in_or_app. left. unfold result_elements. simpl. tauto.
Qed.

Lemma predictor_invocation_witness :
  neighborhood_encoded example_form = Some 10%Z /\
  submitted example_form = true /\
  predict_calls
    (snd (run pandas_sort_values progress_between_0_and_1 example_disk
            example_form))
  = [ [ ("BedroomAbvGr", [PyInt 3]); ("TotalBathrooms", [PyFloat 2]);
        ("TotalArea", [PyInt 1500]); ("HouseAge", [PyInt 10]);
        ("OverallQual", [PyInt 7]); ("GarageCars", [PyInt 2]);
        ("Neighborhood_encoded", [PyInt 10]) ] ].
Proof.
  split; [reflexivity|]. split; [reflexivity|].
  apply (predictor_invocation pandas_sort_values progress_between_0_and_1
           example_disk example_model example_features example_form 10);
    reflexivity.
Defined.

(** ** Every way a run can go *)

Section RunCases.

Variable sort_values : list ImportanceRow -> list ImportanceRow.
Variable progress_check : float -> option Exception.
Variable disk : Disk.

Lemma render_ranking_cases model feature_names page :
  render_ranking sort_values progress_check model feature_names page
  = match feature_importances_ model with
    | inl e => (Raised e, page)
    | inr importances =>
        match importance_df sort_values feature_names importances with
        | inl e => (Raised e, page)
        | inr df => (rows_outcome progress_check df,
                     page ++ rendered_bars progress_check 0 df)
        end
    end.
Proof.
  unfold render_ranking, lift.
  destruct (feature_importances_ model) as [e|importances]; [reflexivity|].
  erewrite bind_value; [|reflexivity].
  destruct (importance_df sort_values feature_names importances) as [e|df];
    [reflexivity|].
  erewrite bind_value; [|reflexivity].
  apply render_rows_spec.
Qed.

Lemma prediction_logic_returns model feature_names f encoded price rest page :
  predict model (input_df f encoded) = inr (price :: rest) ->
  prediction_logic sort_values progress_check model feature_names f encoded page
  = render_ranking sort_values progress_check model feature_names
      (page ++ PredictCall (input_df f encoded) :: result_elements price).
Proof.
  intros Hp. unfold prediction_logic.
  erewrite bind_value; [|rewrite call_predict_spec, Hp; reflexivity].
  erewrite bind_value; [|reflexivity].
  rewrite !render_then, <- !app_assoc. reflexivity.
Qed.

Lemma rendered_bars_accepted rows : forall first,
  all_accepted progress_check rows ->
  rendered_bars progress_check first rows = ranking_bars first rows /\
  rows_outcome progress_check rows = Value tt.
Proof.
  unfold all_accepted, ranking_bars.
  induction rows as [|row rows IH]; intros first Hall; [split; reflexivity|].
  apply Forall_cons_iff in Hall as [Hrow Hrows]. simpl. rewrite Hrow.
  destruct (IH (S first) Hrows) as [-> ->]. split; [|reflexivity].
  rewrite Nat.add_0_r. f_equal.
  apply imap_ext. intros i x _. simpl. now rewrite Nat.add_succ_r.
Qed.

Lemma rendered_bars_refused shown row rest e : forall first,
  all_accepted progress_check shown ->
  progress_check (Importance row) = Some e ->
  rendered_bars progress_check first (shown ++ row :: rest)
    = ranking_bars first shown /\
  rows_outcome progress_check (shown ++ row :: rest) = Raised e.
Proof.
  unfold all_accepted, ranking_bars.
  induction shown as [|x shown IH]; intros first Hall Hrow; simpl.
  - rewrite Hrow. split; reflexivity.
  - apply Forall_cons_iff in Hall as [Hx Hshown]. rewrite Hx.
    destruct (IH (S first) Hshown Hrow) as [-> ->]. split; [|reflexivity].
    rewrite Nat.add_0_r. f_equal.
    apply imap_ext. intros i y _. simpl. now rewrite Nat.add_succ_r.
Qed.

(** Either every row is accepted, or there is a first refused row. *)
Lemma first_refusal rows :
  all_accepted progress_check rows \/
  exists shown row rest e,
    rows = shown ++ row :: rest /\
    all_accepted progress_check shown /\
    progress_check (Importance row) = Some e.
Proof.
  unfold all_accepted.
  induction rows as [|x rows IH]; [left; constructor|].
  destruct (progress_check (Importance x)) as [e|] eqn:Hx.
  - right. exists [], x, rows, e. repeat split; [constructor|exact Hx].
  - destruct IH as [Hall|(shown & row & rest & e & -> & Hshown & Hrow)].
    + left. now constructor.
    + right. exists (x :: shown), row, rest, e.
      repeat split; [now constructor|exact Hrow].
Qed.

(** The run after a passed startup, on a submitted form, when [predict]
    returned a price: the result elements, then whatever the ranking
    rendered, then an error box if the ranking raised. *)
Lemma run_after_prediction model feature_names f encoded price rest :
  model_at disk MODEL_PATH = Loaded model ->
  features_at disk FEATURES_PATH = Loaded feature_names ->
  falsy feature_names = false ->
  neighborhood_encoded f = Some encoded ->
  submitted f = true ->
  predict model (input_df f encoded) = inr (price :: rest) ->
  run sort_values progress_check disk f
  = (Value tt,
     header_elements ++ form_elements
       ++ PredictCall (input_df f encoded) :: result_elements price
       ++ match feature_importances_ model with
          | inl e => [prediction_error_box e]
          | inr importances =>
              match importance_df sort_values feature_names importances with
              | inl e => [prediction_error_box e]
              | inr df =>
                  rendered_bars progress_check 0 df
                    ++ match rows_outcome progress_check df with
                       | Raised e => [prediction_error_box e]
                       | _ => []
                       end
              end
          end
       ++ footer_elements feature_names).
Proof.
  intros Hm Hf Hne Henc Hsub Hp.
  rewrite (run_started sort_values progress_check disk model feature_names
             f encoded Hm Hf Hne Henc), Hsub.
  unfold mbind, App_bind, bind, try_except.
  rewrite (prediction_logic_returns model feature_names f encoded price rest _ Hp).
  rewrite render_ranking_cases.
  destruct (feature_importances_ model) as [e|importances].
  { unfold prediction_handler, render, prediction_error_box.
    rewrite about_and_footer_spec, <- !app_assoc. reflexivity. }
  destruct (importance_df sort_values feature_names importances) as [e|df].
  { unfold prediction_handler, render, prediction_error_box.
    rewrite about_and_footer_spec, <- !app_assoc. reflexivity. }
  destruct (rows_outcome progress_check df) as [[]|e|] eqn:Hrows.
  - rewrite about_and_footer_spec, <- !app_assoc. reflexivity.
  - unfold prediction_handler, render, prediction_error_box.
    rewrite about_and_footer_spec, <- !app_assoc. reflexivity.
  - exfalso. clear -Hrows. induction df as [|row df IH]; simpl in Hrows;
      [discriminate|].
    destruct (progress_check (Importance row)); [discriminate|auto].
Qed.

Lemma run_on_raise model feature_names f encoded e :
  model_at disk MODEL_PATH = Loaded model ->
  features_at disk FEATURES_PATH = Loaded feature_names ->
  falsy feature_names = false ->
  neighborhood_encoded f = Some encoded ->
  submitted f = true ->
  predict model (input_df f encoded) = inl e ->
  run sort_values progress_check disk f
  = (Value tt,
     header_elements ++ form_elements
       ++ [PredictCall (input_df f encoded); prediction_error_box e]
       ++ footer_elements feature_names).
Proof.
  intros Hm Hf Hne Henc Hsub Hp.
  rewrite (run_started sort_values progress_check disk model feature_names
             f encoded Hm Hf Hne Henc), Hsub.
  erewrite bind_value; [|apply try_predict_raises; exact Hp].
  rewrite about_and_footer_spec, <- !app_assoc. reflexivity.
Qed.

Lemma run_on_empty_result model feature_names f encoded :
  model_at disk MODEL_PATH = Loaded model ->
  features_at disk FEATURES_PATH = Loaded feature_names ->
  falsy feature_names = false ->
  neighborhood_encoded f = Some encoded ->
  submitted f = true ->
  predict model (input_df f encoded) = inr [] ->
  run sort_values progress_check disk f
  = (Value tt,
     header_elements ++ form_elements
       ++ [PredictCall (input_df f encoded);
           prediction_error_box
             (mkException "IndexError"
                "index 0 is out of bounds for axis 0 with size 0")]
       ++ footer_elements feature_names).
Proof.
  intros Hm Hf Hne Henc Hsub Hp.
  rewrite (run_started sort_values progress_check disk model feature_names
             f encoded Hm Hf Hne Henc), Hsub.
  unfold try_except, prediction_logic.
  unfold mbind at 1, App_bind at 1, bind at 1.
  erewrite bind_value; [|rewrite call_predict_spec, Hp; reflexivity].
  erewrite bind_raised; [|reflexivity].
  unfold prediction_handler, render, prediction_error_box.
  rewrite about_and_footer_spec, <- !app_assoc. reflexivity.
Qed.

Lemma run_not_submitted model feature_names f encoded :
  model_at disk MODEL_PATH = Loaded model ->
  features_at disk FEATURES_PATH = Loaded feature_names ->
  falsy feature_names = false ->
  neighborhood_encoded f = Some encoded ->
  submitted f = false ->
  run sort_values progress_check disk f
  = (Value tt,
     header_elements ++ form_elements ++ footer_elements feature_names).
Proof.
  intros Hm Hf Hne Henc Hsub.
  rewrite (run_started sort_values progress_check disk model feature_names
             f encoded Hm Hf Hne Henc), Hsub.
  erewrite bind_value; [|reflexivity].
  rewrite about_and_footer_spec, <- !app_assoc. reflexivity.
Qed.

Lemma run_key_error model feature_names f :
  model_at disk MODEL_PATH = Loaded model ->
  features_at disk FEATURES_PATH = Loaded feature_names ->
  falsy feature_names = false ->
  neighborhood_encoded f = None ->
  run sort_values progress_check disk f
  = (Raised (mkException "KeyError" (neighborhood f)),
     header_elements ++ form_widgets).
Proof.
  intros Hm Hf Hne Henc. unfold run, app. rewrite !render_then.
  erewrite bind_value; [|rewrite load_model_spec, Hm; reflexivity].
  erewrite bind_value; [|rewrite load_feature_names_spec, Hf; reflexivity].
  unfold startup_guard. rewrite Hne.
  erewrite bind_value; [|reflexivity].
  erewrite bind_raised; [reflexivity|].
  unfold input_form. rewrite !render_then, Henc.
  erewrite bind_raised; [|reflexivity].
  unfold header_elements, form_widgets. rewrite <- !app_assoc. reflexivity.
Qed.

Lemma error_boxes_rendered_bars rows : forall first,
  error_boxes (rendered_bars progress_check first rows) = [].
Proof.
  induction rows as [|row rows IH]; intros first; simpl; [reflexivity|].
  destruct (progress_check (Importance row)); simpl; [reflexivity|apply IH].
Qed.

Lemma progress_bars_rendered_bars rows : forall first,
  length (progress_bars (rendered_bars progress_check first rows))
  = length (rendered_bars progress_check first rows).
Proof.
  induction rows as [|row rows IH]; intros first; simpl; [reflexivity|].
  destruct (progress_check (Importance row)); simpl; [reflexivity|].
  now rewrite IH.
Qed.

End RunCases.

(** Past the guard a run never ends with the stop signal. *)
Lemma run_passes_guard
  (sort_values : list ImportanceRow -> list ImportanceRow)
  (progress_check : float -> option Exception) (disk : Disk)
  (model : Model) (feature_names : list string) (f : FormState) :
  model_at disk MODEL_PATH = Loaded model ->
  features_at disk FEATURES_PATH = Loaded feature_names ->
  falsy feature_names = false ->
  fst (run sort_values progress_check disk f) <> Stopped.
Proof.
  intros Hm Hf Hne.
  destruct (neighborhood_encoded f) as [encoded|] eqn:Henc.
  - destruct (run_completes sort_values progress_check disk model feature_names
                f encoded Hm Hf Hne Henc) as (shown & -> & _). discriminate.
  - rewrite (run_key_error sort_values progress_check disk model feature_names
               f Hm Hf Hne Henc). discriminate.
Qed.

(** X1: when a file exists but opening or unpickling it raises an exception
    other than FileNotFoundError, the loader reports that exception's text
    in an error box and returns the same absent result as for a missing
    file ([None] for the model, the empty list for the feature names), and
    the run stops at the guard with only the header and the error boxes on
    the page. *)
Theorem load_failure_halts
  (sort_values : list ImportanceRow -> list ImportanceRow)
  (progress_check : float -> option Exception) (disk : Disk) (f : FormState)
  (e : Exception) :
  (model_at disk MODEL_PATH = LoadFailed e ->
   (forall page,
      load_model disk MODEL_PATH page
      = (Value None, page ++ [model_load_failed_box e])) /\
   run sort_values progress_check disk f
   = (Stopped,
      header_elements ++ model_load_failed_box e
        :: snd (load_feature_names disk FEATURES_PATH []))) /\
  (features_at disk FEATURES_PATH = LoadFailed e ->
   (forall page,
      load_feature_names disk FEATURES_PATH page
      = (Value [], page ++ [features_load_failed_box e])) /\
   run sort_values progress_check disk f
   = (Stopped,
      header_elements ++ snd (load_model disk MODEL_PATH [])
        ++ [features_load_failed_box e])).
Proof.
  split.
  - intros Hm. split.
    + intros page. now rewrite load_model_spec, Hm.
    + rewrite run_without_model by (intros model; rewrite Hm; discriminate).
      rewrite load_model_spec, Hm. cbn [snd].
      rewrite !load_feature_names_spec.
      destruct (features_at disk FEATURES_PATH); cbn [snd];
        now rewrite <- ?app_assoc, ?app_nil_r.
  - intros Hf. split.
    + intros page. now rewrite load_feature_names_spec, Hf.
    + rewrite run_without_features by (now rewrite load_feature_names_spec, Hf).
      rewrite load_feature_names_spec, Hf. cbn [snd].
      rewrite !load_model_spec.
      destruct (model_at disk MODEL_PATH); cbn [snd];
        now rewrite <- ?app_assoc, ?app_nil_r.
Qed.

Lemma load_failure_halts_witness :
  model_at (disk_with (LoadFailed (mkException "UnpicklingError" "invalid load key"))
              (Loaded example_features)) MODEL_PATH
  = LoadFailed (mkException "UnpicklingError" "invalid load key") /\
  run pandas_sort_values progress_between_0_and_1
      (disk_with (LoadFailed (mkException "UnpicklingError" "invalid load key"))
         (Loaded example_features)) example_form
  = (Stopped,
     header_elements
       ++ [ErrorBox [Lit "❌ An error occurred while loading the model: ";
                     Str "invalid load key"]]).
Proof.
  split; [reflexivity|].
  exact (proj2 (proj1 (load_failure_halts pandas_sort_values
                         progress_between_0_and_1
                         (disk_with (LoadFailed (mkException "UnpicklingError"
                                                   "invalid load key"))
                            (Loaded example_features))
                         example_form
                         (mkException "UnpicklingError" "invalid load key"))
                  eq_refl)).
Defined.

(** X2: a run ends with the stop signal exactly when the model did not load
    or the loaded feature-name list is empty.  Both loaders have run by then
    (the feature names are loaded even when the model is absent), and a
    stopped run has rendered the header and the loaders' error boxes only:
    no form, and no call to [predict]. *)
Theorem run_stops_exactly_at_guard
  (sort_values : list ImportanceRow -> list ImportanceRow)
  (progress_check : float -> option Exception) (disk : Disk) (f : FormState) :
  (fst (run sort_values progress_check disk f) = Stopped <->
   (forall model, model_at disk MODEL_PATH <> Loaded model) \/
   fst (load_feature_names disk FEATURES_PATH []) = Value []) /\
  (fst (run sort_values progress_check disk f) = Stopped ->
   snd (run sort_values progress_check disk f)
   = header_elements ++ snd (load_model disk MODEL_PATH [])
       ++ snd (load_feature_names disk FEATURES_PATH []) /\
   predict_calls (snd (run sort_values progress_check disk f)) = []).
Proof.
  assert (Hpage : forall page,
             snd (load_feature_names disk FEATURES_PATH
                    (snd (load_model disk MODEL_PATH page)))
             = page ++ snd (load_model disk MODEL_PATH [])
                 ++ snd (load_feature_names disk FEATURES_PATH [])).
  { intros page. rewrite !load_model_spec, !load_feature_names_spec.
    destruct (model_at disk MODEL_PATH), (features_at disk FEATURES_PATH);
      cbn [snd app]; now rewrite <- ?app_assoc, ?app_nil_r. }
  assert (Hcalls : predict_calls
                     (header_elements ++ snd (load_model disk MODEL_PATH [])
                        ++ snd (load_feature_names disk FEATURES_PATH [])) = []).
  { rewrite !predict_calls_app, load_model_spec, load_feature_names_spec.
    destruct (model_at disk MODEL_PATH), (features_at disk FEATURES_PATH);
      reflexivity. }
  assert (Hiff : fst (run sort_values progress_check disk f) = Stopped <->
                 (forall model, model_at disk MODEL_PATH <> Loaded model) \/
                 fst (load_feature_names disk FEATURES_PATH []) = Value []).
  { split.
    - intros Hstop.
      destruct (model_at disk MODEL_PATH) as [|e|model] eqn:Hm;
        [left; intros model; discriminate|left; intros model; discriminate|].
      right. rewrite load_feature_names_spec.
      destruct (features_at disk FEATURES_PATH) as [|e|features] eqn:Hf;
        [reflexivity|reflexivity|].
      destruct features as [|name names]; [reflexivity|].
      exfalso.
      exact (run_passes_guard sort_values progress_check disk model
               (name :: names) f Hm Hf eq_refl Hstop).
    - intros [Hm|Hf].
      + now rewrite run_without_model.
      + now rewrite run_without_features. }
  split; [exact Hiff|].
  intros Hstop. apply Hiff in Hstop as [Hm|Hf].
  - rewrite run_without_model by exact Hm. cbn [snd]. rewrite Hpage.
    split; [reflexivity|exact Hcalls].
  - rewrite run_without_features by exact Hf. cbn [snd]. rewrite Hpage.
    split; [reflexivity|exact Hcalls].
Qed.

Lemma run_stops_exactly_at_guard_witness :
  fst (run pandas_sort_values progress_between_0_and_1 empty_disk example_form)
  = Stopped /\
  snd (run pandas_sort_values progress_between_0_and_1 empty_disk example_form)
  = header_elements ++ [model_missing_box] ++ [features_missing_box].
Proof.
  split; [reflexivity|].
  apply (proj2 (run_stops_exactly_at_guard pandas_sort_values
                  progress_between_0_and_1 empty_disk example_form)).
  reflexivity.
Defined.

(** X3: a run in which the submit button was not pressed renders the header,
    the form and the footer, and nothing else: [predict] is not called and
    no result, progress bar or error box is shown. *)
Theorem unsubmitted_run_shows_only_form
  (sort_values : list ImportanceRow -> list ImportanceRow)
  (progress_check : float -> option Exception) (disk : Disk)
  (model : Model) (feature_names : list string)
  (f : FormState) (encoded : Z) :
  model_at disk MODEL_PATH = Loaded model ->
  features_at disk FEATURES_PATH = Loaded feature_names ->
  falsy feature_names = false ->
  neighborhood_encoded f = Some encoded ->
  submitted f = false ->
  run sort_values progress_check disk f
  = (Value tt,
     header_elements ++ form_elements ++ footer_elements feature_names) /\
  predict_calls (snd (run sort_values progress_check disk f)) = [] /\
  progress_bars (snd (run sort_values progress_check disk f)) = [] /\
  error_boxes (snd (run sort_values progress_check disk f)) = [].
Proof.
  intros Hm Hf Hne Henc Hsub.
  rewrite (run_not_submitted sort_values progress_check disk model
             feature_names f encoded Hm Hf Hne Henc Hsub). cbn [snd].
  split; [reflexivity|].
  rewrite !predict_calls_app, !progress_bars_app, !error_boxes_app.
  split; [reflexivity|]. split; reflexivity.
Qed.

Lemma unsubmitted_run_shows_only_form_witness :
  submitted idle_form = false /\
  run pandas_sort_values progress_between_0_and_1 example_disk idle_form
  = (Value tt,
     header_elements ++ form_elements ++ footer_elements example_features).
Proof.
  split; [reflexivity|].
  apply (unsubmitted_run_shows_only_form pandas_sort_values
           progress_between_0_and_1 example_disk example_model
           example_features idle_form 10); reflexivity.
Defined.

(** X4: whatever the user did with the form, the record handed to [predict]
    holds values inside the widgets' ranges: bedrooms 1 to 10, bathrooms 0.5
    to 10, area 500 to 20000, age 0 to 100, quality 1 to 10, garage 0 to 5,
    and a neighborhood code of 5, 10 or 15. *)
Theorem model_sees_only_in_range_inputs
  (sort_values : list ImportanceRow -> list ImportanceRow)
  (progress_check : float -> option Exception) (disk : Disk)
  (model : Model) (feature_names : list string) (f : FormState) :
  model_at disk MODEL_PATH = Loaded model ->
  features_at disk FEATURES_PATH = Loaded feature_names ->
  falsy feature_names = false ->
  reachable f ->
  submitted f = true ->
  exists (b : Z) (ba : Q) (ar ag q g n : Z),
    predict_calls (snd (run sort_values progress_check disk f))
    = [prepare_input b ba ar ag q g n] /\
    (1 <= b <= 10)%Z /\ ((1 # 2) <= ba /\ ba <= 10)%Q /\
    (500 <= ar <= 20000)%Z /\ (0 <= ag <= 100)%Z /\ (1 <= q <= 10)%Z /\
    (0 <= g <= 5)%Z /\ (n = 5 \/ n = 10 \/ n = 15)%Z.
Proof.
  intros Hm Hf Hne Hreach Hsub.
  destruct (reachable_encoded f Hreach) as (n & Henc & Hn).
  destruct (run_completes sort_values progress_check disk model feature_names
              f n Hm Hf Hne Henc) as (shown & Hrun & Hcalls).
  exists (bedrooms f), (bathrooms f), (area f), (age f), (quality f),
    (garage f), n.
  split.
  - rewrite Hrun, Hsub in *. cbn [snd].
    rewrite !predict_calls_app, Hcalls. reflexivity.
  - destruct Hreach as (Hb & (Hba1 & Hba2 & _) & Har & Hag & Hq & Hg & _).
    unfold int_widget_yields in *. simpl in *.
    repeat split; try tauto; try lia.
Qed.

Lemma model_sees_only_in_range_inputs_witness :
  reachable example_form /\
  exists (b : Z) (ba : Q) (ar ag q g n : Z),
    predict_calls
      (snd (run pandas_sort_values progress_between_0_and_1 example_disk
              example_form))
    = [prepare_input b ba ar ag q g n] /\
    (1 <= b <= 10)%Z /\ ((1 # 2) <= ba /\ ba <= 10)%Q /\
    (500 <= ar <= 20000)%Z /\ (0 <= ag <= 100)%Z /\ (1 <= q <= 10)%Z /\
    (0 <= g <= 5)%Z /\ (n = 5 \/ n = 10 \/ n = 15)%Z.
Proof.
  split; [exact example_form_reachable|].
  exact (model_sees_only_in_range_inputs pandas_sort_values
           progress_between_0_and_1 example_disk example_model
           example_features example_form eq_refl eq_refl eq_refl
           example_form_reachable eq_refl).
Defined.

(** X5: when [predict] returns an empty array, taking its first element
    raises IndexError inside the [try]; the run completes with that error in
    the error box, and no result element or progress bar is shown. *)
Theorem empty_prediction_is_caught
  (sort_values : list ImportanceRow -> list ImportanceRow)
  (progress_check : float -> option Exception) (disk : Disk)
  (model : Model) (feature_names : list string)
  (f : FormState) (encoded : Z) :
  model_at disk MODEL_PATH = Loaded model ->
  features_at disk FEATURES_PATH = Loaded feature_names ->
  falsy feature_names = false ->
  neighborhood_encoded f = Some encoded ->
  submitted f = true ->
  predict model (input_df f encoded) = inr [] ->
  run sort_values progress_check disk f
  = (Value tt,
     header_elements ++ form_elements
       ++ [PredictCall (input_df f encoded);
           ErrorBox [Lit "An unexpected prediction error occurred: ";
                     Str "index 0 is out of bounds for axis 0 with size 0"]]
       ++ footer_elements feature_names) /\
  progress_bars (snd (run sort_values progress_check disk f)) = [] /\
  (forall price,
     ~ In (Metric "Predicted Price" [Lit "$"; Fmt_comma_0f price]
             (Some "Instant Estimate"))
          (snd (run sort_values progress_check disk f))).
Proof.
  intros Hm Hf Hne Henc Hsub Hp.
  rewrite (run_on_empty_result sort_values progress_check disk model
             feature_names f encoded Hm Hf Hne Henc Hsub Hp). cbn [snd].
  split; [reflexivity|]. split.
  - rewrite !progress_bars_app. reflexivity.
  - intros price Hin.
    repeat (apply in_app_or in Hin as [Hin|Hin]);
      simpl in Hin; repeat (destruct Hin as [Hin|Hin]; [discriminate Hin|]);
      exact Hin.
Qed.

Lemma empty_prediction_is_caught_witness :
  predict empty_prediction_model (input_df example_form 10) = inr [] /\
  error_boxes
    (snd (run pandas_sort_values progress_between_0_and_1
            (disk_with (Loaded empty_prediction_model) (Loaded example_features))
            example_form))
  = [[Lit "An unexpected prediction error occurred: ";
      Str "index 0 is out of bounds for axis 0 with size 0"]].
Proof.
  pose proof (empty_prediction_is_caught pandas_sort_values
                progress_between_0_and_1
                (disk_with (Loaded empty_prediction_model)
                   (Loaded example_features))
                empty_prediction_model example_features example_form 10
                eq_refl eq_refl eq_refl eq_refl eq_refl eq_refl)
    as (Hrun & _).
  split; [reflexivity|]. rewrite Hrun. reflexivity.
Defined.

(** X6: when the model reports a number of importances different from the
    number of loaded feature names, the price, the band and the subheader
    are shown as usual, building the importance frame raises ValueError, and
    the run completes with that error in the error box and no progress
    bar. *)
Theorem importance_length_mismatch_is_caught
  (sort_values : list ImportanceRow -> list ImportanceRow)
  (progress_check : float -> option Exception) (disk : Disk)
  (model : Model) (feature_names : list string)
  (f : FormState) (encoded : Z) (price : float) (rest importances : list float) :
  model_at disk MODEL_PATH = Loaded model ->
  features_at disk FEATURES_PATH = Loaded feature_names ->
  falsy feature_names = false ->
  neighborhood_encoded f = Some encoded ->
  submitted f = true ->
  predict model (input_df f encoded) = inr (price :: rest) ->
  feature_importances_ model = inr importances ->
  length feature_names <> length importances ->
  run sort_values progress_check disk f
  = (Value tt,
     header_elements ++ form_elements
       ++ PredictCall (input_df f encoded) :: result_elements price
       ++ [ErrorBox [Lit "An unexpected prediction error occurred: ";
                     Str "All arrays must be of the same length"]]
       ++ footer_elements feature_names) /\
  progress_bars (snd (run sort_values progress_check disk f)) = [].
Proof.
  intros Hm Hf Hne Henc Hsub Hp Hi Hlen.
  rewrite (run_after_prediction sort_values progress_check disk model
             feature_names f encoded price rest Hm Hf Hne Henc Hsub Hp), Hi.
  unfold importance_df, pd_DataFrame.
  apply Nat.eqb_neq in Hlen. rewrite Hlen. cbn [snd].
  split; [reflexivity|].
  rewrite !progress_bars_app. reflexivity.
Qed.

Lemma importance_length_mismatch_is_caught_witness :
  length example_features <> length [0.5%float; 0.5%float] /\
  error_boxes
    (snd (run pandas_sort_values progress_between_0_and_1
            (disk_with (Loaded two_importances_model) (Loaded example_features))
            example_form))
  = [[Lit "An unexpected prediction error occurred: ";
      Str "All arrays must be of the same length"]].
Proof.
  assert (Hlen : length example_features <> length [0.5%float; 0.5%float])
    by (simpl; lia).
  pose proof (importance_length_mismatch_is_caught pandas_sort_values
                progress_between_0_and_1
                (disk_with (Loaded two_importances_model)
                   (Loaded example_features))
                two_importances_model example_features example_form 10
                250000%float [] [0.5%float; 0.5%float]
                eq_refl eq_refl eq_refl eq_refl eq_refl eq_refl eq_refl Hlen)
    as (Hrun & _).
  split; [exact Hlen|]. rewrite Hrun. reflexivity.
Defined.

(** X7: when reading [model.feature_importances_] raises, the price, the
    band and the subheader have already been rendered and stay on the page;
    the exception is caught after them, its text goes into the error box,
    and no progress bar is shown. *)
Theorem missing_importances_are_caught
  (sort_values : list ImportanceRow -> list ImportanceRow)
  (progress_check : float -> option Exception) (disk : Disk)
  (model : Model) (feature_names : list string)
  (f : FormState) (encoded : Z) (price : float) (rest : list float) (e : Exception) :
  model_at disk MODEL_PATH = Loaded model ->
  features_at disk FEATURES_PATH = Loaded feature_names ->
  falsy feature_names = false ->
  neighborhood_encoded f = Some encoded ->
  submitted f = true ->
  predict model (input_df f encoded) = inr (price :: rest) ->
  feature_importances_ model = inl e ->
  run sort_values progress_check disk f
  = (Value tt,
     header_elements ++ form_elements
       ++ PredictCall (input_df f encoded) :: result_elements price
       ++ [ErrorBox [Lit "An unexpected prediction error occurred: ";
                     Str (exc_str e)]]
       ++ footer_elements feature_names) /\
  progress_bars (snd (run sort_values progress_check disk f)) = [].
Proof.
  intros Hm Hf Hne Henc Hsub Hp Hi.
  rewrite (run_after_prediction sort_values progress_check disk model
             feature_names f encoded price rest Hm Hf Hne Henc Hsub Hp), Hi.
  cbn [snd]. split; [reflexivity|].
  rewrite !progress_bars_app. reflexivity.
Qed.

Lemma missing_importances_are_caught_witness :
  feature_importances_ no_importances_model
  = inl (mkException "AttributeError"
           "'LinearRegression' object has no attribute 'feature_importances_'") /\
  error_boxes
    (snd (run pandas_sort_values progress_between_0_and_1
            (disk_with (Loaded no_importances_model) (Loaded example_features))
            example_form))
  = [[Lit "An unexpected prediction error occurred: ";
      Str "'LinearRegression' object has no attribute 'feature_importances_'"]].
Proof.
  pose proof (missing_importances_are_caught pandas_sort_values
                progress_between_0_and_1
                (disk_with (Loaded no_importances_model)
                   (Loaded example_features))
                no_importances_model example_features example_form 10
                250000%float [] _
                eq_refl eq_refl eq_refl eq_refl eq_refl eq_refl eq_refl)
    as (Hrun & _).
  split; [reflexivity|]. rewrite Hrun. reflexivity.
Defined.

Lemma progress_bars_of_result_page d price middle feature_names :
  progress_bars
    (header_elements ++ form_elements
       ++ PredictCall d :: result_elements price
       ++ middle ++ footer_elements feature_names)
  = progress_bars middle.
Proof.
  rewrite !progress_bars_app.
  change (progress_bars (PredictCall d :: ?l)) with (progress_bars l).
  rewrite !progress_bars_app. cbn. now rewrite app_nil_r.
Qed.

Lemma error_boxes_of_result_page d price middle feature_names :
  error_boxes
    (header_elements ++ form_elements
       ++ PredictCall d :: result_elements price
       ++ middle ++ footer_elements feature_names)
  = error_boxes middle.
Proof.
  rewrite !error_boxes_app.
  change (error_boxes (PredictCall d :: ?l)) with (error_boxes l).
  rewrite !error_boxes_app. cbn. now rewrite app_nil_r.
Qed.

(** X8: on a submission where the model predicts, reports as many
    importances as there are feature names, and [st.progress] accepts each
    of them, the page is the header, the form, the call, the result
    elements, one progress bar per feature name in the order of the sorted
    frame, ranked 1, 2, 3, ..., and the footer; no error box is shown. *)
Theorem successful_run_page
  (sort_values : list ImportanceRow -> list ImportanceRow)
  (progress_check : float -> option Exception) (disk : Disk)
  (model : Model) (feature_names : list string)
  (f : FormState) (encoded : Z) (price : float) (rest importances : list float) :
  model_at disk MODEL_PATH = Loaded model ->
  features_at disk FEATURES_PATH = Loaded feature_names ->
  falsy feature_names = false ->
  neighborhood_encoded f = Some encoded ->
  submitted f = true ->
  predict model (input_df f encoded) = inr (price :: rest) ->
  feature_importances_ model = inr importances ->
  length feature_names = length importances ->
  Permutation (sort_values (zip_with mkRow feature_names importances))
    (zip_with mkRow feature_names importances) ->
  all_accepted progress_check
    (sort_values (zip_with mkRow feature_names importances)) ->
  run sort_values progress_check disk f
  = (Value tt,
     header_elements ++ form_elements
       ++ PredictCall (input_df f encoded) :: result_elements price
       ++ ranking_bars 0 (sort_values (zip_with mkRow feature_names importances))
       ++ footer_elements feature_names) /\
  length (progress_bars (snd (run sort_values progress_check disk f)))
  = length feature_names /\
  Permutation
    (map Feature (sort_values (zip_with mkRow feature_names importances)))
    feature_names /\
  error_boxes (snd (run sort_values progress_check disk f)) = [].
Proof.
  intros Hm Hf Hne Henc Hsub Hp Hi Hlen Hsort Hall.
  destruct (rendered_bars_accepted progress_check _ 0%nat Hall) as [Hbars Hok].
  pose proof Hsort as Hperm.
  destruct (frame_columns feature_names importances Hlen) as [Hnames _].
  rewrite (run_after_prediction sort_values progress_check disk model
             feature_names f encoded price rest Hm Hf Hne Henc Hsub Hp), Hi.
  unfold importance_df, pd_DataFrame.
  apply Nat.eqb_eq in Hlen. rewrite Hlen, Hok, app_nil_r. cbn [snd].
  split; [now rewrite Hbars|]. split; [|split].
  - rewrite progress_bars_of_result_page, progress_bars_rendered_bars, Hbars.
    unfold ranking_bars. rewrite length_imap, (Permutation_length Hperm).
    transitivity (length (map Feature (zip_with mkRow feature_names importances)));
      [symmetry; apply length_map|now rewrite Hnames].
  - transitivity (map Feature (zip_with mkRow feature_names importances));
      [apply Permutation_map; exact Hperm|now rewrite Hnames].
  - rewrite error_boxes_of_result_page. apply error_boxes_rendered_bars.
Qed.

Lemma successful_run_page_witness :
  all_accepted progress_between_0_and_1
    (pandas_sort_values
       (zip_with mkRow example_features [0.25%float; 0.5%float; 0.25%float])) /\
  progress_bars
    (snd (run pandas_sort_values progress_between_0_and_1 example_disk
            example_form))
  = [(0.5%float,
      [FmtInt 1; Lit ". "; Str "OverallQual"; Lit ": "; Fmt_1f 50; Lit "%"]);
     (0.25%float,
      [FmtInt 2; Lit ". "; Str "TotalArea"; Lit ": "; Fmt_1f 25; Lit "%"]);
     (0.25%float,
      [FmtInt 3; Lit ". "; Str "HouseAge"; Lit ": "; Fmt_1f 25; Lit "%"])].
Proof.
  assert (Hall : all_accepted progress_between_0_and_1
                   (pandas_sort_values
                      (zip_with mkRow example_features
                         [0.25%float; 0.5%float; 0.25%float])))
    by (repeat constructor).
  pose proof (successful_run_page pandas_sort_values progress_between_0_and_1
                example_disk example_model example_features example_form 10
                250000%float [] [0.25%float; 0.5%float; 0.25%float]
                eq_refl eq_refl eq_refl eq_refl eq_refl eq_refl eq_refl eq_refl
                (perm_swap _ _ _) Hall) as (Hrun & _).
  split; [exact Hall|]. rewrite Hrun. reflexivity.
Defined.

(** X9: when [st.progress] refuses the importance of some row of the sorted
    frame, the rows before the first refused one keep their progress bars,
    the loop ends there, and the exception [st.progress] raised is caught
    and shown in the error box, below the bars already rendered. *)
Theorem refused_progress_value_truncates_ranking
  (sort_values : list ImportanceRow -> list ImportanceRow)
  (progress_check : float -> option Exception) (disk : Disk)
  (model : Model) (feature_names : list string)
  (f : FormState) (encoded : Z) (price : float) (rest importances : list float)
  (shown : list ImportanceRow) (row : ImportanceRow)
  (later : list ImportanceRow) (e : Exception) :
  model_at disk MODEL_PATH = Loaded model ->
  features_at disk FEATURES_PATH = Loaded feature_names ->
  falsy feature_names = false ->
  neighborhood_encoded f = Some encoded ->
  submitted f = true ->
  predict model (input_df f encoded) = inr (price :: rest) ->
  feature_importances_ model = inr importances ->
  length feature_names = length importances ->
  sort_values (zip_with mkRow feature_names importances)
  = shown ++ row :: later ->
  all_accepted progress_check shown ->
  progress_check (Importance row) = Some e ->
  run sort_values progress_check disk f
  = (Value tt,
     header_elements ++ form_elements
       ++ PredictCall (input_df f encoded) :: result_elements price
       ++ ranking_bars 0 shown
       ++ [ErrorBox [Lit "An unexpected prediction error occurred: ";
                     Str (exc_str e)]]
       ++ footer_elements feature_names).
Proof.
  intros Hm Hf Hne Henc Hsub Hp Hi Hlen Hsplit Hshown Hrow.
  destruct (rendered_bars_refused progress_check shown row later e 0%nat
              Hshown Hrow) as [Hbars Hraise].
  rewrite (run_after_prediction sort_values progress_check disk model
             feature_names f encoded price rest Hm Hf Hne Henc Hsub Hp), Hi.
  unfold importance_df, pd_DataFrame.
  apply Nat.eqb_eq in Hlen. rewrite Hlen, Hsplit, Hraise, Hbars.
  unfold prediction_error_box. rewrite <- !app_assoc. reflexivity.
Qed.

Lemma refused_progress_value_truncates_ranking_witness :
  pandas_sort_values
    (zip_with mkRow example_features [0.25%float; 0.5%float; (-0.25)%float])
  = [mkRow "OverallQual" 0.5; mkRow "TotalArea" 0.25]
      ++ mkRow "HouseAge" (-0.25) :: [] /\
  map fst
    (progress_bars
       (snd (run pandas_sort_values progress_between_0_and_1
               (disk_with (Loaded negative_importance_model)
                  (Loaded example_features))
               example_form)))
  = [0.5%float; 0.25%float] /\
  error_boxes
    (snd (run pandas_sort_values progress_between_0_and_1
            (disk_with (Loaded negative_importance_model)
               (Loaded example_features))
            example_form))
  = [[Lit "An unexpected prediction error occurred: ";
      Str "Progress Value has invalid value [0.0, 1.0]"]].
Proof.
  assert (Hshown : all_accepted progress_between_0_and_1
                     [mkRow "OverallQual" 0.5; mkRow "TotalArea" 0.25])
    by (repeat constructor).
  pose proof (refused_progress_value_truncates_ranking pandas_sort_values
                progress_between_0_and_1
                (disk_with (Loaded negative_importance_model)
                   (Loaded example_features))
                negative_importance_model example_features example_form 10
                250000%float [] [0.25%float; 0.5%float; (-0.25)%float]
                [mkRow "OverallQual" 0.5; mkRow "TotalArea" 0.25]
                (mkRow "HouseAge" (-0.25)) [] _
                eq_refl eq_refl eq_refl eq_refl eq_refl eq_refl eq_refl eq_refl
                eq_refl Hshown eq_refl) as Hrun.
  split; [reflexivity|]. rewrite Hrun. split; reflexivity.
Defined.

(** X10: once both artifacts are loaded and the feature-name list is not
    empty, no run on a reachable form state ends in an exception or in the
    stop signal, whatever the model does: the run completes, the footer is
    rendered last, and at most one error box is on the page. *)
Theorem run_completes_with_at_most_one_error
  (sort_values : list ImportanceRow -> list ImportanceRow)
  (progress_check : float -> option Exception) (disk : Disk)
  (model : Model) (feature_names : list string) (f : FormState) :
  model_at disk MODEL_PATH = Loaded model ->
  features_at disk FEATURES_PATH = Loaded feature_names ->
  falsy feature_names = false ->
  reachable f ->
  fst (run sort_values progress_check disk f) = Value tt /\
  (exists shown,
     snd (run sort_values progress_check disk f)
     = header_elements ++ form_elements ++ shown
         ++ footer_elements feature_names) /\
  (length (error_boxes (snd (run sort_values progress_check disk f))) <= 1)%nat.
Proof.
  intros Hm Hf Hne Hreach.
  destruct (reachable_encoded f Hreach) as (encoded & Henc & _).
  destruct (run_completes sort_values progress_check disk model feature_names
              f encoded Hm Hf Hne Henc) as (shown & Hrun & _).
  split; [now rewrite Hrun|]. split; [exists shown; now rewrite Hrun|].
  clear shown Hrun.
  destruct (submitted f) eqn:Hsub.
  - destruct (predict model (input_df f encoded)) as [e|[|price rest]] eqn:Hp.
    + rewrite (run_on_raise sort_values progress_check disk model
                 feature_names f encoded e Hm Hf Hne Henc Hsub Hp).
      cbn [snd]. rewrite !error_boxes_app. simpl. lia.
    + rewrite (run_on_empty_result sort_values progress_check disk model
                 feature_names f encoded Hm Hf Hne Henc Hsub Hp).
      cbn [snd]. rewrite !error_boxes_app. simpl. lia.
    + rewrite (run_after_prediction sort_values progress_check disk model
                 feature_names f encoded price rest Hm Hf Hne Henc Hsub Hp).
      cbn [snd]. rewrite error_boxes_of_result_page.
      destruct (feature_importances_ model) as [e|importances]; [simpl; lia|].
      destruct (importance_df sort_values feature_names importances) as [e|df];
        [simpl; lia|].
      rewrite error_boxes_app, error_boxes_rendered_bars.
      destruct (rows_outcome progress_check df); simpl; lia.
  - rewrite (run_not_submitted sort_values progress_check disk model
               feature_names f encoded Hm Hf Hne Henc Hsub).
    cbn [snd]. rewrite !error_boxes_app. simpl. lia.
Qed.

Lemma run_completes_with_at_most_one_error_witness :
  reachable example_form /\
  fst (run pandas_sort_values progress_between_0_and_1
         (disk_with (Loaded failing_model) (Loaded example_features))
         example_form)
  = Value tt.
Proof.
  split; [exact example_form_reachable|].
  apply (run_completes_with_at_most_one_error pandas_sort_values
           progress_between_0_and_1
           (disk_with (Loaded failing_model) (Loaded example_features))
           failing_model example_features example_form
           eq_refl eq_refl eq_refl example_form_reachable).
Defined.

(** X12: the lookup [neighborhood_map[neighborhood]] of line 80 is outside
    the [try]: for a neighborhood that is not a key of the dict the run ends
    in KeyError right after the select box, before the submit button is
    rendered and without calling [predict].  No reachable form state gets
    there, since the select box offers exactly the keys of the dict. *)
Theorem lookup_outside_try
  (sort_values : list ImportanceRow -> list ImportanceRow)
  (progress_check : float -> option Exception) (disk : Disk)
  (model : Model) (feature_names : list string) (f : FormState) :
  model_at disk MODEL_PATH = Loaded model ->
  features_at disk FEATURES_PATH = Loaded feature_names ->
  falsy feature_names = false ->
  (neighborhood_map !! neighborhood f = None ->
   run sort_values progress_check disk f
   = (Raised (mkException "KeyError" (neighborhood f)),
      header_elements ++ form_widgets) /\
   predict_calls (snd (run sort_values progress_check disk f)) = [] /\
   ~ In (FormSubmitButton "🎯 Predict Price")
        (snd (run sort_values progress_check disk f))) /\
  (reachable f -> neighborhood_map !! neighborhood f <> None) /\
  (forall choice,
     In choice (sw_options neighborhood_select) <->
     neighborhood_map !! choice <> None).
Proof.
  intros Hm Hf Hne. split; [|split].
  - intros Hnone.
    rewrite (run_key_error sort_values progress_check disk model feature_names
               f Hm Hf Hne Hnone). cbn [snd].
    split; [reflexivity|]. split; [reflexivity|].
    intros Hin. apply in_app_or in Hin as [Hin|Hin]; simpl in Hin;
      repeat (destruct Hin as [Hin|Hin]; [discriminate Hin|]); exact Hin.
  - intros Hreach Hnone.
    destruct (reachable_encoded f Hreach) as (v & Hv & _).
    unfold neighborhood_encoded in Hv. congruence.
  - intros choice. split.
    + simpl. intros [<-|[<-|[<-|[]]]]; discriminate.
    + intros Hsome. unfold neighborhood_map in Hsome.
      destruct (decide (choice = "Average Area")) as [->|H1]; [simpl; tauto|].
      destruct (decide (choice = "Good Area")) as [->|H2]; [simpl; tauto|].
      destruct (decide (choice = "Premium Area")) as [->|H3]; [simpl; tauto|].
      exfalso. apply Hsome.
      rewrite !lookup_insert_ne by congruence.
      apply lookup_singleton_ne. congruence.
Qed.

Lemma lookup_outside_try_witness :
  neighborhood_map !! neighborhood (form_with_neighborhood "Downtown") = None /\
  run pandas_sort_values progress_between_0_and_1 example_disk
      (form_with_neighborhood "Downtown")
  = (Raised (mkException "KeyError" "Downtown"),
     header_elements ++ form_widgets).
Proof.
  split; [reflexivity|].
  apply (lookup_outside_try pandas_sort_values progress_between_0_and_1
           example_disk example_model example_features
           (form_with_neighborhood "Downtown") eq_refl eq_refl eq_refl).
  reflexivity.
Defined.

(** ** An empty feature-name list *)

(** C10 does not hold as stated: with the model loaded, a feature-name file
    that holds an empty list and a feature-name file that is missing both
    stop the run, but the two runs can be told apart: the missing file
    leaves an error box on the page, the empty list leaves only the
    header. *)
Lemma empty_feature_list_differs_from_load_error :
  run pandas_sort_values progress_between_0_and_1 empty_features_disk example_form
  = (Stopped, header_elements) /\
  run pandas_sort_values progress_between_0_and_1 missing_features_disk example_form
  = (Stopped, header_elements ++ [features_missing_box]) /\
  run pandas_sort_values progress_between_0_and_1 empty_features_disk example_form
  <> run pandas_sort_values progress_between_0_and_1 missing_features_disk example_form.
Proof.
  split; [reflexivity|]. split; [reflexivity|]. discriminate.
Qed.

(** C10, amended: when the model loads and the feature-name file holds an
    empty list, [load_feature_names] returns that list and renders nothing,
    and the guard stops the run before the form, with only the header on
    the page.  When instead the feature-name file fails to load, the loader
    returns the same empty list and the guard stops the run with the same
    stop signal, but the page also holds the loader's error box: the two
    runs agree on the value the loader returns and on how the run ends, not
    on the page. *)
Theorem empty_feature_list_halts_without_error_box
  (sort_values : list ImportanceRow -> list ImportanceRow)
  (progress_check : float -> option Exception) (disk broken : Disk)
  (model model' : Model) (f : FormState) :
  model_at disk MODEL_PATH = Loaded model ->
  features_at disk FEATURES_PATH = Loaded [] ->
  model_at broken MODEL_PATH = Loaded model' ->
  (forall features, features_at broken FEATURES_PATH <> Loaded features) ->
  (forall page, load_feature_names disk FEATURES_PATH page = (Value [], page)) /\
  run sort_values progress_check disk f = (Stopped, header_elements) /\
  exists box,
    (forall page,
       load_feature_names broken FEATURES_PATH page
       = (Value [], page ++ [ErrorBox box])) /\
    run sort_values progress_check broken f
    = (Stopped, header_elements ++ [ErrorBox box]) /\
    run sort_values progress_check broken f
    <> run sort_values progress_check disk f.
Proof.
  intros Hm Hf Hm' Hf'.
  assert (Hrun : run sort_values progress_check disk f = (Stopped, header_elements)).
  { rewrite run_without_features by (now rewrite load_feature_names_spec, Hf).
    now rewrite load_model_spec, Hm, load_feature_names_spec, Hf. }
  split; [|split; [exact Hrun|]].
  - intros page. now rewrite load_feature_names_spec, Hf.
  - assert (Hbox : exists box, forall page,
               load_feature_names broken FEATURES_PATH page
               = (Value [], page ++ [ErrorBox box])).
    { destruct (features_at broken FEATURES_PATH) as [|e|features] eqn:Hb.
      - eexists. intros page. rewrite load_feature_names_spec, Hb. reflexivity.
      - eexists. intros page. rewrite load_feature_names_spec, Hb. reflexivity.
      - now contradiction (Hf' features). }
    destruct Hbox as (box & Hbox). exists box.
    assert (Hrun' : run sort_values progress_check broken f
                    = (Stopped, header_elements ++ [ErrorBox box])).
    { rewrite run_without_features by (now rewrite Hbox).
      now rewrite load_model_spec, Hm', Hbox. }
    split; [exact Hbox|]. split; [exact Hrun'|].
    rewrite Hrun, Hrun'. intros Heq.
    apply (f_equal (fun r => length (snd r))) in Heq.
    cbn [snd] in Heq. rewrite length_app in Heq. simpl in Heq. lia.
Qed.

Lemma empty_feature_list_halts_without_error_box_witness :
  run pandas_sort_values progress_between_0_and_1 empty_features_disk example_form
  = (Stopped, header_elements) /\
  exists box,
    run pandas_sort_values progress_between_0_and_1 missing_features_disk example_form
    = (Stopped, header_elements ++ [ErrorBox box]).
Proof.
  destruct (empty_feature_list_halts_without_error_box pandas_sort_values
              progress_between_0_and_1 empty_features_disk missing_features_disk
              example_model example_model example_form eq_refl eq_refl eq_refl)
    as (_ & Hrun & box & _ & Hrun' & _).
  - intros features. discriminate.
  - split; [exact Hrun|]. exists box. exact Hrun'.
Defined.

(** ** The controls of the form *)

Lemma widgets_app l1 l2 : widgets (l1 ++ l2) = widgets l1 ++ widgets l2.
Proof.
  induction l1 as [|e l1 IH]; [reflexivity|].
  destruct e; simpl; now rewrite IH.
Qed.

Lemma widgets_rendered_bars (progress_check : float -> option Exception) rows :
  forall first, widgets (rendered_bars progress_check first rows) = [].
Proof.
  induction rows as [|row rows IH]; intros first; simpl; [reflexivity|].
  destruct (progress_check (Importance row)); simpl; [reflexivity|apply IH].
Qed.

(** Whatever the form state and whatever the model does, the widgets on the
    page of a run that passed the guard are those of the form. *)
Lemma run_widgets
  (sort_values : list ImportanceRow -> list ImportanceRow)
  (progress_check : float -> option Exception) (disk : Disk)
  (model : Model) (feature_names : list string) (f : FormState) :
  model_at disk MODEL_PATH = Loaded model ->
  features_at disk FEATURES_PATH = Loaded feature_names ->
  falsy feature_names = false ->
  widgets (snd (run sort_values progress_check disk f)) = widgets form_elements.
Proof.
  intros Hm Hf Hne.
  destruct (neighborhood_encoded f) as [encoded|] eqn:Henc.
  2:{ now rewrite (run_key_error sort_values progress_check disk model
                     feature_names f Hm Hf Hne Henc). }
  destruct (submitted f) eqn:Hsub.
  2:{ now rewrite (run_not_submitted sort_values progress_check disk model
                     feature_names f encoded Hm Hf Hne Henc Hsub). }
  destruct (predict model (input_df f encoded)) as [e|[|price rest]] eqn:Hp.
  - now rewrite (run_on_raise sort_values progress_check disk model
                   feature_names f encoded e Hm Hf Hne Henc Hsub Hp).
  - now rewrite (run_on_empty_result sort_values progress_check disk model
                   feature_names f encoded Hm Hf Hne Henc Hsub Hp).
  - rewrite (run_after_prediction sort_values progress_check disk model
               feature_names f encoded price rest Hm Hf Hne Henc Hsub Hp).
    cbn [snd]. rewrite !widgets_app.
    change (widgets (PredictCall (input_df f encoded) :: ?l)) with (widgets l).
    rewrite !widgets_app.
    assert (Hmid : widgets
              match feature_importances_ model with
              | inl e => [prediction_error_box e]
              | inr importances =>
                  match importance_df sort_values feature_names importances with
                  | inl e => [prediction_error_box e]
                  | inr df =>
                      rendered_bars progress_check 0 df
                        ++ match rows_outcome progress_check df with
                           | Raised e => [prediction_error_box e]
                           | _ => []
                           end
                  end
              end = []).
    { destruct (feature_importances_ model) as [e|importances]; [reflexivity|].
      destruct (importance_df sort_values feature_names importances) as [e|df];
        [reflexivity|].
      rewrite widgets_app, widgets_rendered_bars.
      now destruct (rows_outcome progress_check df). }
    rewrite Hmid. reflexivity.
Qed.

(** The form states the rendered form admits are the reachable ones. *)
Lemma form_admits_reachable (f : FormState) :
  Forall2 widget_yields (widgets form_elements) (form_values f) <-> reachable f.
Proof.
  unfold reachable, form_values. cbn [widgets form_elements]. split.
  - intros H.
    repeat match goal with
           | H : Forall2 _ (_ :: _) (_ :: _) |- _ =>
               apply Forall2_cons_1 in H; destruct H as [? H]
           end.
    cbn [widget_yields] in *. tauto.
  - intros (Hb & Hba & Har & Hag & Hq & Hg & Hn).
    repeat (constructor; [assumption|]). constructor.
Qed.

(** C9: on every run that passes the guard, whatever the form state and
    whatever the model does, the page holds exactly seven input widgets, in
    the order of the script: sliders for bedrooms (1 to 10), bathrooms (0.5
    to 10, step 0.5), age (0 to 100), quality (1 to 10) and garage (0 to 5),
    a number input for the area (500 to 20000), and a select box with three
    options.  A form state is one these rendered widgets can produce exactly
    when every value lies within the stated range (the bathrooms on the grid
    of halves) and the neighborhood is one of the three options; these are
    the reachable form states. *)
Theorem form_controls_bounded
  (sort_values : list ImportanceRow -> list ImportanceRow)
  (progress_check : float -> option Exception) (disk : Disk)
  (model : Model) (feature_names : list string) (f : FormState) :
  model_at disk MODEL_PATH = Loaded model ->
  features_at disk FEATURES_PATH = Loaded feature_names ->
  falsy feature_names = false ->
  widgets (snd (run sort_values progress_check disk f))
  = [Slider (mkIntWidget "Bedrooms" 1 10 3);
     FloatSlider (mkFloatWidget "Total Bathrooms" (1 # 2) 10 2 (1 # 2));
     NumberInput (mkIntWidget "Total Area (sqft)" 500 20000 1500)
       "Area must be between 500 and 20000 sqft.";
     Slider (mkIntWidget "House Age (years)" 0 100 10);
     Slider (mkIntWidget "Overall Quality (1-10)" 1 10 7);
     Slider (mkIntWidget "Garage Cars" 0 5 2);
     SelectBox (mkSelectWidget "Neighborhood"
                  ["Average Area"; "Good Area"; "Premium Area"])] /\
  (admitted_by (snd (run sort_values progress_check disk f)) f <->
   (1 <= bedrooms f <= 10)%Z /\
   ((1 # 2) <= bathrooms f)%Q /\ (bathrooms f <= 10)%Q /\
   (exists k : Z, (0 <= k)%Z /\ (bathrooms f == (1 # 2) + inject_Z k * (1 # 2))%Q) /\
   (500 <= area f <= 20000)%Z /\
   (0 <= age f <= 100)%Z /\
   (1 <= quality f <= 10)%Z /\
   (0 <= garage f <= 5)%Z /\
   (neighborhood f = "Average Area" \/ neighborhood f = "Good Area" \/
    neighborhood f = "Premium Area")) /\
  (admitted_by (snd (run sort_values progress_check disk f)) f <-> reachable f).
Proof.
  intros Hm Hf Hne.
  pose proof (run_widgets sort_values progress_check disk model feature_names
                f Hm Hf Hne) as Hw.
  split; [exact Hw|].
  assert (Hadm : admitted_by (snd (run sort_values progress_check disk f)) f
                 <-> reachable f).
  { unfold admitted_by. rewrite Hw. apply form_admits_reachable. }
  split; [|exact Hadm].
  rewrite Hadm. unfold reachable, int_widget_yields, float_widget_yields,
    select_widget_yields. cbn.
  split.
  - intros (Hb & (Hba1 & Hba2 & Hk) & Har & Hag & Hq & Hg & Hn).
    repeat split; try tauto; try lia.
    destruct Hn as [<- | [<- | [<- | []]]]; auto.
  - intros (Hb & Hba1 & Hba2 & Hk & Har & Hag & Hq & Hg & Hn).
    repeat split; try tauto; try lia.
    destruct Hn as [-> | [-> | ->]]; auto.
Qed.

Lemma form_controls_bounded_witness :
  length (widgets (snd (run pandas_sort_values progress_between_0_and_1
                          example_disk example_form))) = 7%nat /\
  admitted_by (snd (run pandas_sort_values progress_between_0_and_1
                      example_disk example_form)) example_form.
Proof.
  destruct (form_controls_bounded pandas_sort_values progress_between_0_and_1
              example_disk example_model example_features example_form
              eq_refl eq_refl eq_refl) as (Hw & _ & Hadm).
  split.
  - rewrite Hw. reflexivity.
  - apply Hadm. exact example_form_reachable.
Defined.

(** ** The order on binary64 floats *)










(** ** Insertion sort *)

Section InsertionSort.

Context {A : Type}.
Variable less : A -> A -> bool.







Variable ok : A -> Prop.
Hypothesis less_asym :
  forall a b, ok a -> ok b -> less a b = true -> less b a = false.
Hypothesis less_negtrans :
  forall a b c, ok a -> ok b -> ok c ->
    less a b = false -> less b c = false -> less a c = false.



End InsertionSort.

(** ** The ranking *)












Lemma progress_bars_ranking_bars rows : forall first,
  progress_bars (ranking_bars first rows)
  = imap (fun i row => (Importance row, progress_text (first + i) row)) rows.
Proof.
  unfold ranking_bars.
  induction rows as [|row rows IH]; intros first; [reflexivity|].
  cbn [imap progress_bars]. f_equal.
  etransitivity; [|etransitivity; [apply (IH (S first))|]].
  - f_equal. apply imap_ext. intros i x _. simpl. now rewrite Nat.add_succ_r.
  - apply imap_ext. intros i x _. simpl. now rewrite Nat.add_succ_r.
Qed.

(** The page of a submitted run whose ranking is rendered in full. *)
Lemma run_accepted_ranking
  (sort_values : list ImportanceRow -> list ImportanceRow)
  (progress_check : float -> option Exception) (disk : Disk)
  (model : Model) (feature_names : list string)
  (f : FormState) (encoded : Z) (price : float) (rest importances : list float) :
  model_at disk MODEL_PATH = Loaded model ->
  features_at disk FEATURES_PATH = Loaded feature_names ->
  falsy feature_names = false ->
  neighborhood_encoded f = Some encoded ->
  submitted f = true ->
  predict model (input_df f encoded) = inr (price :: rest) ->
  feature_importances_ model = inr importances ->
  length feature_names = length importances ->
  all_accepted progress_check
    (sort_values (zip_with mkRow feature_names importances)) ->
  run sort_values progress_check disk f
  = (Value tt,
     header_elements ++ form_elements
       ++ PredictCall (input_df f encoded) :: result_elements price
       ++ ranking_bars 0 (sort_values (zip_with mkRow feature_names importances))
       ++ footer_elements feature_names).
Proof.
  intros Hm Hf Hne Henc Hsub Hp Hi Hlen Hall.
  destruct (rendered_bars_accepted progress_check _ 0%nat Hall) as [Hbars Hok].
  rewrite (run_after_prediction sort_values progress_check disk model
             feature_names f encoded price rest Hm Hf Hne Henc Hsub Hp), Hi.
  unfold importance_df, pd_DataFrame.
  apply Nat.eqb_eq in Hlen. rewrite Hlen, Hok, app_nil_r.
  now rewrite Hbars.
Qed.




(** ** Rounding in binary64

    The operations on floats are specified by [SpecFloat]: the exact result
    is shifted to the exponent of the format and rounded to the nearest
    mantissa, ties to even. *)

Section ShiftAndRound.

Local Open Scope Z_scope.

Lemma iter_pos_nat {A} (f : A -> A) p : forall x,
  SpecFloat.iter_pos f p x = Nat.iter (Pos.to_nat p) f x.
Proof.
  induction p as [p IH|p IH|]; intros x; cbn [SpecFloat.iter_pos].
  - rewrite !IH, Pos2Nat.inj_xI, Nat.iter_succ_r.
    replace (2 * Pos.to_nat p)%nat with (Pos.to_nat p + Pos.to_nat p)%nat by lia.
    now rewrite Nat.iter_add.
  - rewrite !IH, Pos2Nat.inj_xO.
    replace (2 * Pos.to_nat p)%nat with (Pos.to_nat p + Pos.to_nat p)%nat by lia.
    now rewrite Nat.iter_add.
  - reflexivity.
Qed.

Lemma shr_1_nonneg m r s :
  0 <= m ->
  shr_1 (Build_shr_record m r s) = Build_shr_record (m / 2) (Z.odd m) (r || s).
Proof.
  intros Hm. rewrite <- Z.div2_div.
  destruct m as [|[p|p|]|p]; try reflexivity. lia.
Qed.

Lemma mod_pow2_succ m k :
  0 <= k ->
  m mod 2 ^ (k + 1) = m mod 2 ^ k + 2 ^ k * Z.b2z (Z.testbit m k).
Proof.
  intros Hk. rewrite Z.pow_add_r, Z.pow_1_r by lia.
  rewrite Z.rem_mul_r by lia. f_equal. f_equal.
  rewrite Z.testbit_spec' by lia. reflexivity.
Qed.

Lemma iter_shr_1 m k :
  0 <= m ->
  Nat.iter (S k) shr_1 (Build_shr_record m false false)
  = Build_shr_record (m / 2 ^ (Z.of_nat k + 1)) (Z.testbit m (Z.of_nat k))
      (negb (m mod 2 ^ Z.of_nat k =? 0)).
Proof.
  intros Hm. induction k as [|k IH].
  - cbn [Nat.iter]. rewrite shr_1_nonneg by assumption.
    change (Z.of_nat 0) with 0. rewrite Z.pow_0_r, Z.mod_1_r, Z.bit0_odd.
    reflexivity.
  - change (Nat.iter (S (S k)) shr_1 ?x) with (shr_1 (Nat.iter (S k) shr_1 x)).
    rewrite IH, shr_1_nonneg by (apply Z.div_pos; lia).
    rewrite Nat2Z.inj_succ. unfold Z.succ.
    f_equal.
    + rewrite Z.div_div by lia.
      rewrite (Z.pow_add_r 2 (Z.of_nat k + 1) 1) by lia. reflexivity.
    + rewrite <- Z.bit0_odd, <- Z.shiftr_div_pow2 by lia.
      rewrite Z.shiftr_spec by lia. f_equal. 
    + rewrite mod_pow2_succ by lia.
      pose proof (Z.mod_pos_bound m (2 ^ Z.of_nat k) ltac:(lia)).
      assert (0 < 2 ^ Z.of_nat k) by lia.
      destruct (Z.testbit m (Z.of_nat k)); cbn [Z.b2z orb].
      * symmetry. apply negb_true_iff, Z.eqb_neq. lia.
      * now rewrite Z.mul_0_r, Z.add_0_r.
Qed.

Lemma shr_spec m e n :
  0 <= m -> 0 < n ->
  shr (Build_shr_record m false false) e n
  = (Build_shr_record (m / 2 ^ n) (Z.testbit m (n - 1))
       (negb (m mod 2 ^ (n - 1) =? 0)), e + n).
Proof.
  intros Hm Hn. destruct n as [|p|p]; try lia.
  unfold shr. rewrite iter_pos_nat.
  destruct (Pos.to_nat p) as [|k] eqn:Hk; [lia|].
  rewrite iter_shr_1 by assumption.
  replace (Z.of_nat k) with (Z.pos p - 1) by lia.
  now replace (Z.pos p - 1 + 1) with (Z.pos p) by lia.
Qed.

(** Rounding to nearest even after a shift by [n] bits. *)
Lemma round_shifted m n :
  0 <= m -> 0 < n ->
  let mrs := Build_shr_record (m / 2 ^ n) (Z.testbit m (n - 1))
               (negb (m mod 2 ^ (n - 1) =? 0)) in
  let r := round_nearest_even (shr_m mrs) (loc_of_shr_record mrs) in
  (r = m / 2 ^ n \/ r = m / 2 ^ n + 1) /\
  2 * Z.abs (r * 2 ^ n - m) <= 2 ^ n /\
  (m mod 2 ^ n = 0 -> r * 2 ^ n = m).
Proof.
  intros Hm Hn mrs r. subst mrs r. cbn [shr_m].
  pose proof (mod_pow2_succ m (n - 1) ltac:(lia)) as Hsplit.
  replace (n - 1 + 1) with n in Hsplit by lia.
  assert (Hpow : 2 ^ n = 2 * 2 ^ (n - 1)).
  { replace n with (n - 1 + 1) at 1 by lia. rewrite Z.pow_add_r by lia. lia. }
  pose proof (Z.mod_pos_bound m (2 ^ (n - 1)) ltac:(lia)) as Hlow.
  pose proof (Z.div_mod m (2 ^ n) ltac:(lia)) as Hdiv.
  assert (0 < 2 ^ (n - 1)) by lia.
  set (q := m / 2 ^ n) in *. set (P := 2 ^ (n - 1)) in *.
  set (low := m mod P) in *.
  rewrite Hsplit, Hpow in *. clear Hsplit.
  destruct (Z.testbit m (n - 1)); cbn [Z.b2z] in *;
    destruct (Z.eqb_spec low 0) as [H0|H0]; cbn [negb loc_of_shr_record round_nearest_even];
    try destruct (Z.even q); repeat split; try (left; reflexivity); try (right; reflexivity);
    try lia; try nia.
Qed.

Lemma digits2_pos_bounds p :
  2 ^ (Z.pos (digits2_pos p) - 1) <= Z.pos p < 2 ^ Z.pos (digits2_pos p).
Proof.
  induction p as [p IH|p IH|]; cbn [digits2_pos]; [| |split; reflexivity].
  - rewrite Pos2Z.inj_succ. unfold Z.succ.
    replace (Z.pos (digits2_pos p) + 1 - 1) with (Z.pos (digits2_pos p) - 1 + 1) by lia.
    rewrite !Z.pow_add_r, Z.pow_1_r by lia. lia.
  - rewrite Pos2Z.inj_succ. unfold Z.succ.
    replace (Z.pos (digits2_pos p) + 1 - 1) with (Z.pos (digits2_pos p) - 1 + 1) by lia.
    rewrite !Z.pow_add_r, Z.pow_1_r by lia. lia.
Qed.

Lemma Zdigits2_le r k : 0 <= k -> 0 <= r < 2 ^ k -> Zdigits2 r <= k.
Proof.
  intros Hk [Hr Hlt]. destruct r as [|p|p]; [assumption| |lia].
  cbn [Zdigits2]. pose proof (digits2_pos_bounds p) as [Hlo _].
  destruct (Z.le_gt_cases (Z.pos (digits2_pos p)) k) as [|Hgt]; [assumption|].
  exfalso. assert (2 ^ k <= 2 ^ (Z.pos (digits2_pos p) - 1))
    by (apply Z.pow_le_mono_r; lia). lia.
Qed.

Lemma Zdigits2_pow2 k : 0 <= k -> Zdigits2 (2 ^ k) = k + 1.
Proof.
  intros Hk. assert (0 < 2 ^ k) by (apply Z.pow_pos_nonneg; lia).
  destruct (2 ^ k) as [|p|p] eqn:Hp; try lia.
  cbn [Zdigits2]. pose proof (digits2_pos_bounds p) as [Hlo Hhi].
  rewrite <- Hp in *.
  apply Z.pow_le_mono_r_iff in Hlo; try lia.
  apply Z.pow_lt_mono_r_iff in Hhi; lia.
Qed.

Section BinaryRound.

Variables prec emax : Z.
Hypothesis prec_pos : 0 < prec.

(** [binary_round_aux] on an exact mantissa: the mantissa is shifted to
    the exponent [Z.max e (fexp (digits + e))] and rounded to nearest. *)
Lemma binary_round_aux_spec sx p e :
  let n := Z.max e (SpecFloat.fexp prec emax (Z.pos (digits2_pos p) + e)) - e in
  exists r : Z,
    0 <= r /\
    2 * Z.abs (r * 2 ^ n - Z.pos p) <= 2 ^ n /\
    (Z.pos p mod 2 ^ n = 0 -> r * 2 ^ n = Z.pos p) /\
    match binary_round_aux prec emax sx (Z.pos p) e loc_Exact with
    | S754_zero s => s = sx /\ r = 0
    | S754_finite s m' e' => s = sx /\ e + n <= e' /\ Z.pos m' * 2 ^ (e' - (e + n)) = r
    | S754_infinity s => s = sx
    | S754_nan => False
    end.
Proof.
  intros n. subst n.
  set (d := Z.pos (digits2_pos p)).
  pose proof (digits2_pos_bounds p) as [Hlo Hhi]. fold d in Hlo, Hhi.
  unfold binary_round_aux, shr_fexp. cbn [Zdigits2 shr_record_of_loc]. fold d.
  set (e1 := SpecFloat.fexp prec emax (d + e)).
  assert (He1 : e1 = Z.max (d + e - prec) (SpecFloat.emin prec emax)) by reflexivity.
  assert (Hemin : SpecFloat.emin prec emax <= e1) by lia.
  destruct (Z.le_gt_cases e1 e) as [Hle|Hgt].
  - (* no shift *)
    replace (Z.max e e1 - e) with 0 by lia.
    exists (Z.pos p). rewrite Z.pow_0_r.
    assert (Hshr : forall mrs, shr mrs e (e1 - e) = (mrs, e)).
    { intros mrs. unfold shr. destruct (e1 - e) eqn:Hn; try reflexivity. lia. }
    rewrite Hshr. cbn [shr_m loc_of_shr_record round_nearest_even Zdigits2].
    fold d. fold e1. rewrite Hshr. cbn [shr_m].
    repeat split; try lia.
    destruct (e <=? emax - prec); repeat split; try lia.
    rewrite Z.add_0_r, Z.sub_diag. lia.
  - (* a shift by [e1 - e] bits *)
    replace (Z.max e e1 - e) with (e1 - e) by lia.
    set (n := e1 - e) in *.
    rewrite (shr_spec (Z.pos p) e n) by lia.
    destruct (round_shifted (Z.pos p) n ltac:(lia) ltac:(lia)) as (Hr & Herr & Hexact).
    cbv zeta in Hr, Herr, Hexact.
    set (r := round_nearest_even _ _) in *.
    replace (e + n) with e1 by (unfold n; lia).
    assert (Hq : 0 <= Z.pos p / 2 ^ n) by (apply Z.div_pos; lia).
    assert (Hr0 : 0 <= r) by lia.
    exists r. split; [exact Hr0|]. split; [exact Herr|]. split; [exact Hexact|].
    (* the rounded mantissa has at most [prec] digits, or is [2 ^ prec] *)
    assert (Hpn : 0 < 2 ^ n) by (apply Z.pow_pos_nonneg; lia).
    assert (Hqlt : Z.pos p / 2 ^ n < 2 ^ (d - n) \/ d < n).
    { destruct (Z.le_gt_cases n d) as [Hnd|Hnd]; [left|right; lia].
      apply Z.div_lt_upper_bound; [lia|].
      rewrite <- Z.pow_add_r by lia. now replace (n + (d - n)) with d by lia. }
    assert (Hdn : d - n <= prec) by (unfold n; lia).
    assert (Hrle : r < 2 ^ prec \/ (r = 2 ^ prec /\ d - n = prec)).
    { destruct Hqlt as [Hqlt|Hdn'].
      - destruct (Z.eq_dec (d - n) prec) as [Heq|Hne].
        + rewrite Heq in Hqlt. lia.
        + left. assert (2 ^ (d - n + 1) <= 2 ^ prec)
            by (apply Z.pow_le_mono_r; lia).
          destruct (Z.le_gt_cases 0 (d - n)) as [Hpos|Hneg].
          * rewrite Z.pow_add_r, Z.pow_1_r in H by lia.
            assert (0 < 2 ^ (d - n)) by (apply Z.pow_pos_nonneg; lia). lia.
          * rewrite (Z.pow_neg_r 2 (d - n)) in Hqlt by lia. lia.
      - left. assert (Z.pos p / 2 ^ n = 0).
        { apply Z.div_small. split; [lia|].
          assert (2 ^ d <= 2 ^ n) by (apply Z.pow_le_mono_r; lia). lia. }
        assert (2 ^ 1 <= 2 ^ prec) by (apply Z.pow_le_mono_r; lia).
        rewrite Z.pow_1_r in *. lia. }
    destruct Hrle as [Hrlt|[Hrmax Hnormal]].
    + (* no second shift *)
      assert (Hdr : Zdigits2 r <= prec) by (apply Zdigits2_le; lia).
      assert (Hshr : forall mrs,
                shr mrs e1 (SpecFloat.fexp prec emax (Zdigits2 r + e1) - e1) = (mrs, e1)).
      { intros mrs. unfold shr, SpecFloat.fexp.
        destruct (Z.max (Zdigits2 r + e1 - prec) (SpecFloat.emin prec emax) - e1)
          eqn:Hn2; try reflexivity. lia. }
      rewrite Hshr. cbn [shr_m].
      destruct r as [|m'|m']; [now split| |lia].
      destruct (e1 <=? emax - prec); [|reflexivity].
      repeat split; try lia. rewrite Z.sub_diag. lia.
    + (* the mantissa was rounded up to [2 ^ prec]: one more shift *)
      rewrite Hrmax, Zdigits2_pow2 by lia.
      assert (Hn2 : SpecFloat.fexp prec emax (prec + 1 + e1) - e1 = 1)
        by (unfold SpecFloat.fexp; lia).
      rewrite Hn2, shr_spec by lia. cbn [shr_m].
      rewrite Z.pow_1_r.
      assert (Hhalf : 2 ^ prec / 2 = 2 ^ (prec - 1)).
      { replace prec with (prec - 1 + 1) at 1 by lia.
        rewrite Z.pow_add_r, Z.pow_1_r by lia. apply Z.div_mul. lia. }
      rewrite Hhalf.
      assert (0 < 2 ^ (prec - 1)) by (apply Z.pow_pos_nonneg; lia).
      destruct (2 ^ (prec - 1)) as [|m'|m'] eqn:Hm'; try lia.
      destruct (e1 + 1 <=? emax - prec); [|reflexivity].
      repeat split; try lia.
      replace (e1 + 1 - e1) with 1 by lia. rewrite Z.pow_1_r, <- Hm'.
      replace prec with (prec - 1 + 1) at 2 by lia.
      rewrite Z.pow_add_r, Z.pow_1_r by lia. lia.
Qed.
End BinaryRound.

End ShiftAndRound.

Section FloatValues.

Local Open Scope Q_scope.

Lemma pow2_pos (e : Z) : 0 < 2 ^ e.
Proof. apply Qpower_0_lt. reflexivity. Qed.

Lemma pow2_add (a b : Z) : 2 ^ (a + b) == 2 ^ a * 2 ^ b.
Proof. apply Qpower_plus. discriminate. Qed.

Lemma pow2_inject (k : Z) : (0 <= k)%Z -> inject_Z (2 ^ k) == 2 ^ k.
Proof. intros Hk. now rewrite Zpower_Qpower. Qed.

Lemma scale_shift (a k e : Z) :
  (0 <= k)%Z -> inject_Z (a * 2 ^ k) * 2 ^ e == inject_Z a * 2 ^ (k + e).
Proof.
  intros Hk. rewrite inject_Z_mult, pow2_inject, pow2_add by assumption. ring.
Qed.

Lemma cond_Zopp_mul s a b : cond_Zopp s (a * b) = (cond_Zopp s a * b)%Z.
Proof. destruct s; simpl; lia. Qed.

Lemma Qabs_scaled s (z e : Z) :
  Qabs (inject_Z (cond_Zopp s z) * 2 ^ e) == inject_Z (Z.abs z) * 2 ^ e.
Proof.
  rewrite Qabs_Qmult, (Qabs_pos (2 ^ e)) by (apply Qlt_le_weak, pow2_pos).
  apply Qmult_comp; [|reflexivity].
  unfold Qabs, inject_Z. destruct s; simpl; [|reflexivity].
  now rewrite Z.abs_opp.
Qed.

Section BinaryRoundValue.

Variables prec emax : Z.
Hypothesis prec_pos : (0 < prec)%Z.

(** The relative error of one rounding is at most [2 ^ - prec], unless the
    result is subnormal and inexact. *)
Lemma binary_round_aux_error sx p e v :
  ((SpecFloat.emin prec emax <= Z.pos (digits2_pos p) + e - prec) \/
   (SpecFloat.emin prec emax <= e) \/
   (Z.pos p mod 2 ^ (SpecFloat.emin prec emax - e) = 0))%Z ->
  SF2Q (binary_round_aux prec emax sx (Z.pos p) e loc_Exact) = Some v ->
  Qabs (v - inject_Z (cond_Zopp sx (Z.pos p)) * 2 ^ e) * 2 ^ prec
  <= inject_Z (Z.pos p) * 2 ^ e.
Proof.
  intros Hcond Hv.
  destruct (binary_round_aux_spec prec emax prec_pos sx p e)
    as (r & Hr0 & Herr & Hexact & Hres).
  set (d := Z.pos (digits2_pos p)) in *.
  pose proof (digits2_pos_bounds p) as [Hlo Hhi]. fold d in Hlo, Hhi.
  set (e1 := SpecFloat.fexp prec emax (d + e)) in *.
  assert (He1 : e1 = Z.max (d + e - prec) (SpecFloat.emin prec emax)) by reflexivity.
  set (n := (Z.max e e1 - e)%Z) in *.
  assert (Hn : (0 <= n)%Z) by (unfold n; lia).
  assert (Hrel : (2 ^ prec * Z.abs (r * 2 ^ n - Z.pos p) <= Z.pos p)%Z).
  { destruct (Z.eq_dec (Z.pos p mod 2 ^ n)%Z 0%Z) as [Hz|Hnz].
    - rewrite (Hexact Hz), Z.sub_diag. cbn [Z.abs]. lia.
    - assert (Hnpos : (0 < n)%Z).
      { destruct (Z.eq_dec n 0%Z) as [H0|H0]; [|lia].
        rewrite H0, Z.pow_0_r, Z.mod_1_r in Hnz. congruence. }
      assert (Hnormal : (e1 = d + e - prec)%Z).
      { destruct Hcond as [Hc|[Hc|Hc]]; [lia|unfold n in Hnpos; lia|].
        destruct (Z.eq_dec e1 (d + e - prec)%Z) as [|Hne]; [assumption|].
        exfalso. apply Hnz.
        replace n with (SpecFloat.emin prec emax - e)%Z by (unfold n; lia).
        exact Hc. }
      assert (Hdn : (2 ^ prec * 2 ^ n = 2 * 2 ^ (d - 1))%Z).
      { rewrite <- Z.pow_add_r by lia.
        replace (prec + n)%Z with (1 + (d - 1))%Z by (unfold n; lia).
        rewrite Z.pow_add_r by lia. reflexivity. }
      assert (0 < 2 ^ prec)%Z by (apply Z.pow_pos_nonneg; lia).
      nia. }
  assert (Hvalue : v == inject_Z (cond_Zopp sx (r * 2 ^ n)) * 2 ^ e).
  { destruct (binary_round_aux prec emax sx (Z.pos p) e loc_Exact)
      as [s|s| |s m' e']; try discriminate; cbn [SF2Q] in Hv.
    - destruct Hres as [_ ->]. injection Hv as <-.
      rewrite Z.mul_0_l. destruct sx; cbn [cond_Zopp Z.opp];
        change (inject_Z 0) with 0; now rewrite Qmult_0_l.
    - destruct Hres as (-> & He' & <-). injection Hv as <-.
      rewrite <- Z.mul_assoc, <- Z.pow_add_r by lia.
      rewrite cond_Zopp_mul, scale_shift by lia.
      now replace (e' - (e + n) + n + e)%Z with e' by lia. }
  rewrite Hvalue.
  assert (Hdiff : inject_Z (cond_Zopp sx (r * 2 ^ n)) * 2 ^ e
                  - inject_Z (cond_Zopp sx (Z.pos p)) * 2 ^ e
                  == inject_Z (cond_Zopp sx (r * 2 ^ n - Z.pos p)) * 2 ^ e).
  { destruct sx; cbn [cond_Zopp];
      rewrite ?inject_Z_opp; unfold Z.sub; rewrite ?inject_Z_plus, ?inject_Z_opp; ring. }
  rewrite Hdiff, Qabs_scaled.
  assert (Hp : 2 ^ prec == inject_Z (2 ^ prec))
    by (symmetry; apply pow2_inject; lia).
  rewrite Hp.
  setoid_replace (inject_Z (Z.abs (r * 2 ^ n - Z.pos p)) * 2 ^ e * inject_Z (2 ^ prec))
    with (inject_Z (2 ^ prec * Z.abs (r * 2 ^ n - Z.pos p)) * 2 ^ e) using relation Qeq
    by (rewrite inject_Z_mult; ring).
  apply Qmult_le_compat_r; [|apply Qlt_le_weak, pow2_pos].
  now rewrite <- Zle_Qle.
Qed.

End BinaryRoundValue.

(** ** binary64 *)

Lemma valid_binary_emin s m e :
  valid_binary (S754_finite s m e) = true -> (-1074 <= e)%Z.
Proof.
  cbn [SpecFloat.valid_binary]. unfold bounded, canonical_mantissa.
  intros H. apply andb_true_iff in H as [H _]. apply Z.eqb_eq in H.
  unfold SpecFloat.fexp, SpecFloat.emin, prec, emax in H. lia.
Qed.

Lemma float_value_abs (x : float) v :
  float_value x = Some v ->
  exists a, float_value (abs x) = Some a /\ a == Qabs v.
Proof.
  unfold float_value. rewrite abs_spec.
  destruct (Prim2SF x) as [s|s| |s m e]; try discriminate; cbn [SFabs SF2Q];
    intros [= <-].
  - exists 0. split; reflexivity.
  - eexists. split; [reflexivity|]. now rewrite Qabs_scaled.
Qed.

Lemma times_100 (a e : Z) :
  inject_Z (a * 7036874417766400) * 2 ^ (e + -46) == 100 * (inject_Z a * 2 ^ e).
Proof.
  assert (H : inject_Z 7036874417766400 * 2 ^ (-46) == 100)
    by (vm_compute; reflexivity).
  rewrite inject_Z_mult, pow2_add.
  transitivity (inject_Z a * 2 ^ e * (inject_Z 7036874417766400 * 2 ^ (-46)));
    [ring|rewrite H; ring].
Qed.

(** The displayed percentage: one multiplication by 100, rounded once. *)
Lemma mul_100_error (x : float) v w :
  float_value x = Some v ->
  float_value (x * 100)%float = Some w ->
  Qabs (w - 100 * v) * 2 ^ 53 <= 100 * Qabs v.
Proof.
  unfold float_value. rewrite mul_spec.
  pose proof (Prim2SF_valid x) as Hvalid.
  assert (H100 : Prim2SF 100 = S754_finite false 7036874417766400 (-46))
    by (vm_compute; reflexivity).
  rewrite H100.
  destruct (Prim2SF x) as [s|s| |s m e]; try discriminate;
    unfold SF64mul; cbn [SFmul SF2Q]; intros [= <-].
  - intros [= <-]. vm_compute. discriminate.
  - rewrite xorb_false_r. intros Hw.
    apply valid_binary_emin in Hvalid.
    apply (binary_round_aux_error prec emax ltac:(reflexivity)) in Hw.
    + rewrite Pos2Z.inj_mul, cond_Zopp_mul, !times_100 in Hw.
      eapply Qle_trans; [exact Hw|].
      rewrite (Qabs_scaled s (Z.pos m) e).
      change (Z.abs (Z.pos m)) with (Z.pos m).
      apply Qle_refl.
    + change (SpecFloat.emin prec emax) with (-1074)%Z.
      destruct (Z.le_gt_cases (-1074)%Z (e + -46)%Z) as [Hle|Hgt];
        [right; left; exact Hle|right; right].
      set (k := (-1074 - (e + -46))%Z).
      assert (Hk : (0 < k <= 46)%Z) by (unfold k; lia).
      rewrite Pos2Z.inj_mul.
      change (Z.pos 7036874417766400) with (100 * 2 ^ 46)%Z.
      replace 46%Z with (46 - k + k)%Z at 1 by lia.
      rewrite Z.pow_add_r by lia.
      replace (Z.pos m * (100 * (2 ^ (46 - k) * 2 ^ k)))%Z
        with (Z.pos m * 100 * 2 ^ (46 - k) * 2 ^ k)%Z by ring.
      apply Z.mod_mul. apply Z.pow_nonzero; lia.
Qed.

Lemma iter_xO_spec m d :
  Z.pos (Pos.iter xO m d) = (Z.pos m * 2 ^ Z.pos d)%Z /\
  Z.pos (digits2_pos (Pos.iter xO m d)) = (Z.pos (digits2_pos m) + Z.pos d)%Z.
Proof.
  induction d as [|d [IH1 IH2]] using Pos.peano_ind.
  - split; cbn [Pos.iter digits2_pos]; lia.
  - rewrite Pos.iter_succ, Pos2Z.inj_succ, Z.pow_succ_r by lia.
    cbn [digits2_pos]. rewrite Pos2Z.inj_xO, Pos2Z.inj_succ, IH1, IH2.
    split; lia.
Qed.

Lemma shl_align_spec m e e' :
  (e' <= e)%Z ->
  snd (shl_align m e e') = e' /\
  Z.pos (fst (shl_align m e e')) = (Z.pos m * 2 ^ (e - e'))%Z /\
  Z.pos (digits2_pos (fst (shl_align m e e')))
  = (Z.pos (digits2_pos m) + (e - e'))%Z.
Proof.
  intros Hle. unfold shl_align.
  destruct (e' - e)%Z as [|d|d] eqn:Hd; try lia.
  - assert (e' = e) by lia. subst e'. cbn [fst snd].
    rewrite Z.sub_diag, Z.pow_0_r. repeat split; lia.
  - cbn [fst snd]. destruct (iter_xO_spec m d) as [H1 H2].
    rewrite H1, H2. replace (e - e')%Z with (Z.pos d) by lia. repeat split.
Qed.

Lemma shl_align_ge m e e' : (e <= e')%Z -> shl_align m e e' = (m, e).
Proof.
  intros Hle. unfold shl_align. destruct (e' - e)%Z eqn:Hd; try reflexivity. lia.
Qed.

(** [binary_round] of a mantissa whose exponent is not below [emin]. *)
Lemma binary_round_error s p e v :
  (-1074 <= e)%Z ->
  SF2Q (binary_round prec emax s p e) = Some v ->
  Qabs (v - inject_Z (cond_Zopp s (Z.pos p)) * 2 ^ e) * 2 ^ 53
  <= inject_Z (Z.pos p) * 2 ^ e.
Proof.
  intros He. unfold binary_round.
  set (f := SpecFloat.fexp prec emax (Z.pos (digits2_pos p) + e)).
  assert (Hf : (-1074 <= f)%Z).
  { unfold f, SpecFloat.fexp. change (SpecFloat.emin prec emax) with (-1074)%Z. lia. }
  destruct (Z.le_gt_cases e f) as [Hle|Hgt].
  - rewrite shl_align_ge by assumption. intros Hv.
    apply (binary_round_aux_error prec emax ltac:(reflexivity)) in Hv;
      [exact Hv|right; left; exact He].
  - destruct (shl_align_spec p e f ltac:(lia)) as (He' & Hm & _).
    destruct (shl_align p e f) as [mz ez]. cbn [fst snd] in *. subst ez.
    intros Hv.
    apply (binary_round_aux_error prec emax ltac:(reflexivity)) in Hv;
      [|right; left; exact Hf].
    rewrite Hm, cond_Zopp_mul, !scale_shift in Hv by lia.
    now replace (e - f + f)%Z with e in Hv by lia.
Qed.

Lemma SF2Q_opp y vy :
  SF2Q y = Some vy -> exists vy', SF2Q (SFopp y) = Some vy' /\ vy' == - vy.
Proof.
  destruct y as [s|s| |s m e]; try discriminate; cbn [SFopp SF2Q]; intros [= <-].
  - exists 0. split; reflexivity.
  - eexists. split; [reflexivity|].
    destruct s; cbn [negb cond_Zopp]; rewrite ?inject_Z_opp; ring.
Qed.

Lemma SFsub_add_opp x y : SF64sub x y = SF64add x (SFopp y).
Proof.
  unfold SF64sub, SF64add.
  destruct x as [sx|sx| |sx mx ex], y as [sy|sy| |sy my ey];
    cbn [SFsub SFadd SFopp]; try reflexivity;
    destruct sx, sy; reflexivity.
Qed.

(** One addition, rounded once. *)
Lemma SFadd_error x y vx vy v :
  valid_binary x = true -> valid_binary y = true ->
  SF2Q x = Some vx -> SF2Q y = Some vy ->
  SF2Q (SF64add x y) = Some v ->
  Qabs (v - (vx + vy)) * 2 ^ 53 <= Qabs (vx + vy).
Proof.
  intros Hx Hy. unfold SF64add.
  destruct x as [sx|sx| |sx mx ex], y as [sy|sy| |sy my ey]; try discriminate;
    cbn [SF2Q SFadd]; intros [= <-] [= <-].
  - destruct sx, sy; cbn [SF2Q]; intros [= <-]; vm_compute; discriminate.
  - cbn [SF2Q]. intros [= <-].
    setoid_replace (inject_Z (cond_Zopp sy (Z.pos my)) * 2 ^ ey
                    - (0 + inject_Z (cond_Zopp sy (Z.pos my)) * 2 ^ ey))
      with 0 using relation Qeq by ring.
    rewrite Qmult_0_l. apply Qabs_nonneg.
  - cbn [SF2Q]. intros [= <-].
    setoid_replace (inject_Z (cond_Zopp sx (Z.pos mx)) * 2 ^ ex
                    - (inject_Z (cond_Zopp sx (Z.pos mx)) * 2 ^ ex + 0))
      with 0 using relation Qeq by ring.
    rewrite Qmult_0_l. apply Qabs_nonneg.
  - apply valid_binary_emin in Hx, Hy.
    set (ez := Z.min ex ey).
    destruct (shl_align_spec mx ex ez ltac:(lia)) as (_ & Hmx & _).
    destruct (shl_align_spec my ey ez ltac:(lia)) as (_ & Hmy & _).
    rewrite Hmx, Hmy.
    set (M := (cond_Zopp sx (Z.pos mx * 2 ^ (ex - ez))
               + cond_Zopp sy (Z.pos my * 2 ^ (ey - ez)))%Z).
    assert (Hsum : inject_Z (cond_Zopp sx (Z.pos mx)) * 2 ^ ex
                   + inject_Z (cond_Zopp sy (Z.pos my)) * 2 ^ ey
                   == inject_Z M * 2 ^ ez).
    { unfold M. rewrite inject_Z_plus, !cond_Zopp_mul.
      rewrite Qmult_plus_distr_l, !scale_shift by lia.
      replace (ex - ez + ez)%Z with ex by lia.
      now replace (ey - ez + ez)%Z with ey by lia. }
    rewrite Hsum. unfold binary_normalize.
    destruct M as [|P|P].
    + cbn [SF2Q]. intros [= <-]. vm_compute. discriminate.
    + intros Hv. apply binary_round_error in Hv; [|lia].
      cbn [cond_Zopp] in Hv.
      now rewrite (Qabs_scaled false (Z.pos P) ez).
    + intros Hv. apply binary_round_error in Hv; [|lia].
      cbn [cond_Zopp] in Hv.
      change (Z.neg P) with (cond_Zopp true (Z.pos P)).
      now rewrite (Qabs_scaled true (Z.pos P) ez).
Qed.

Lemma valid_binary_opp y : valid_binary y = true -> valid_binary (SFopp y) = true.
Proof. now destruct y. Qed.

Lemma add_error (x y : float) vx vy v :
  float_value x = Some vx -> float_value y = Some vy ->
  float_value (x + y)%float = Some v ->
  Qabs (v - (vx + vy)) * 2 ^ 53 <= Qabs (vx + vy).
Proof.
  unfold float_value. rewrite add_spec.
  apply SFadd_error; apply Prim2SF_valid.
Qed.

Lemma sub_error (x y : float) vx vy v :
  float_value x = Some vx -> float_value y = Some vy ->
  float_value (x - y)%float = Some v ->
  Qabs (v - (vx - vy)) * 2 ^ 53 <= Qabs (vx - vy).
Proof.
  unfold float_value. rewrite sub_spec, SFsub_add_opp. intros Hx Hy Hv.
  destruct (SF2Q_opp _ _ Hy) as (vy' & Hy' & Heq).
  pose proof (SFadd_error _ _ _ _ _ (Prim2SF_valid x)
                (valid_binary_opp _ (Prim2SF_valid y)) Hx Hy' Hv) as H.
  rewrite Heq in H. exact H.
Qed.

End FloatValues.

Lemma bound_add (x y A B K : Q) :
  (0 <= K)%Q -> (Qabs x * K <= A)%Q -> (Qabs y * K <= B)%Q ->
  (Qabs (x + y) * K <= A + B)%Q.
Proof.
  intros HK Hx Hy.
  eapply Qle_trans;
    [apply Qmult_le_compat_r; [apply Qabs_triangle|exact HK]|].
  rewrite Qmult_plus_distr_l. now apply Qplus_le_compat.
Qed.

Lemma nonneg_value (x : float) (v : Q) :
  (0 <=? x)%float = true -> float_value x = Some v -> (0 <= v)%Q.
Proof.
  unfold float_value. rewrite leb_spec.
  assert (H0 : Prim2SF 0 = S754_zero false) by (vm_compute; reflexivity).
  rewrite H0.
  destruct (Prim2SF x) as [s|s| |s m e]; try discriminate; cbn [SF2Q];
    intros Hle [= <-]; [apply Qle_refl|].
  destruct s; [discriminate|]. cbn [cond_Zopp].
  apply Qmult_le_0_compat; [|apply Qlt_le_weak, pow2_pos].
  change 0%Q with (inject_Z 0). rewrite <- Zle_Qle. lia.
Qed.

Lemma float_sum_cons (x : float) (l : list float) (s : Q) :
  float_sum (x :: l) = Some s ->
  exists v s0, float_value x = Some v /\ float_sum l = Some s0 /\ s = (v + s0)%Q.
Proof.
  cbn [float_sum].
  destruct (float_value x) as [v|]; [|discriminate].
  destruct (float_sum l) as [s0|]; [|discriminate].
  intros [= <-]. now exists v, s0.
Qed.

(** The exact sum of a column does not depend on the order of its rows. *)
Lemma float_sum_perm (l l' : list float) :
  Permutation l l' ->
  forall s, float_sum l = Some s ->
  exists s', float_sum l' = Some s' /\ (s' == s)%Q.
Proof.
  induction 1 as [|x l l' _ IH|x y l|l l' l'' _ IH1 _ IH2]; intros s Hs.
  - exists s. split; [exact Hs|reflexivity].
  - apply float_sum_cons in Hs as (v & s0 & Hv & Hs0 & ->).
    destruct (IH s0 Hs0) as (s0' & Hs0' & Heq).
    exists (v + s0')%Q. cbn [float_sum]. rewrite Hv, Hs0'.
    split; [reflexivity|now rewrite Heq].
  - apply float_sum_cons in Hs as (vy & s1 & Hvy & Hs1 & ->).
    apply float_sum_cons in Hs1 as (vx & s0 & Hvx & Hs0 & ->).
    exists (vx + (vy + s0))%Q. cbn [float_sum]. rewrite Hvx, Hvy, Hs0.
    split; [reflexivity|ring].
  - destruct (IH1 s Hs) as (s' & Hs' & Heq').
    destruct (IH2 s' Hs') as (s'' & Hs'' & Heq'').
    exists s''. split; [exact Hs''|now rewrite Heq''].
Qed.

(** The percentages of a column against a hundred times the column. *)
Lemma percent_sum_error (l : list float) : forall s a t : Q,
  float_sum l = Some s ->
  float_sum (map abs l) = Some a ->
  float_sum (map (fun x => (x * 100)%float) l) = Some t ->
  (Qabs (t - 100 * s) * 2 ^ 53 <= 100 * a)%Q.
Proof.
  induction l as [|x l IH]; intros s a t Hs Ha Ht.
  - injection Hs as <-. injection Ha as <-. injection Ht as <-.
    vm_compute. discriminate.
  - cbn [map] in Ha, Ht.
    apply float_sum_cons in Hs as (v & s0 & Hv & Hs0 & ->).
    apply float_sum_cons in Ha as (a1 & a0 & Ha1 & Ha0 & ->).
    apply float_sum_cons in Ht as (w & t0 & Hw & Ht0 & ->).
    destruct (float_value_abs x v Hv) as (a1' & Ha1' & Habs).
    rewrite Ha1 in Ha1'. injection Ha1' as <-.
    pose proof (mul_100_error x v w Hv Hw) as Hrow.
    pose proof (IH s0 a0 t0 Hs0 Ha0 Ht0) as Hrest.
    assert (Hsplit : (w + t0 - 100 * (v + s0) == (w - 100 * v) + (t0 - 100 * s0))%Q)
      by ring.
    assert (Hbound : (100 * (a1 + a0) == 100 * Qabs v + 100 * a0)%Q)
      by (rewrite Habs; ring).
    rewrite Hsplit, Hbound.
    apply bound_add; [apply Qlt_le_weak, pow2_pos|exact Hrow|exact Hrest].
Qed.

(** Without a negative entry the absolute values sum to the sum. *)
Lemma float_sum_abs_nonneg (l : list float) : forall s a : Q,
  Forall (fun x => (0 <=? x)%float = true) l ->
  float_sum l = Some s ->
  float_sum (map abs l) = Some a ->
  (a == s)%Q.
Proof.
  induction l as [|x l IH]; intros s a Hpos Hs Ha.
  - injection Hs as <-. injection Ha as <-. reflexivity.
  - cbn [map] in Ha.
    apply Forall_cons_iff in Hpos as [Hx Hpos].
    apply float_sum_cons in Hs as (v & s0 & Hv & Hs0 & ->).
    apply float_sum_cons in Ha as (a1 & a0 & Ha1 & Ha0 & ->).
    destruct (float_value_abs x v Hv) as (a1' & Ha1' & Habs).
    rewrite Ha1 in Ha1'. injection Ha1' as <-.
    rewrite Habs, (Qabs_pos v) by (now apply (nonneg_value x)).
    now rewrite (IH s0 a0 Hpos Hs0 Ha0).
Qed.

Lemma float_value_19013 :
  exists c : Q, float_value 19013 = Some c /\ (c == 19013)%Q.
Proof. eexists. split; [reflexivity|]. vm_compute. reflexivity. Qed.

(** ** The price band *)

Lemma price_bands_app (l1 l2 : list element) :
  price_bands (l1 ++ l2) = price_bands l1 ++ price_bands l2.
Proof. apply flat_map_app. Qed.

Lemma price_bands_rendered_bars (progress_check : float -> option Exception) rows :
  forall first, price_bands (rendered_bars progress_check first rows) = [].
Proof.
  induction rows as [|row rows IH]; intros first; simpl; [reflexivity|].
  destruct (progress_check (Importance row)); [reflexivity|].
  unfold price_bands in *. cbn [flat_map price_band]. apply IH.
Qed.

(** The run of a submitted form on which [predict] returned a price shows
    one price band, whatever the ranking does afterwards. *)
Lemma run_price_bands
  (sort_values : list ImportanceRow -> list ImportanceRow)
  (progress_check : float -> option Exception) (disk : Disk)
  (model : Model) (feature_names : list string)
  (f : FormState) (encoded : Z) (price : float) (rest : list float) :
  model_at disk MODEL_PATH = Loaded model ->
  features_at disk FEATURES_PATH = Loaded feature_names ->
  falsy feature_names = false ->
  neighborhood_encoded f = Some encoded ->
  submitted f = true ->
  predict model (input_df f encoded) = inr (price :: rest) ->
  price_bands (snd (run sort_values progress_check disk f))
  = [(lower_bound price, upper_bound price)].
Proof.
  intros Hm Hf Hne Henc Hsub Hp.
  rewrite (run_after_prediction sort_values progress_check disk model
             feature_names f encoded price rest Hm Hf Hne Henc Hsub Hp).
  cbn [snd]. rewrite !price_bands_app.
  change (PredictCall (input_df f encoded) :: ?l)
    with ([PredictCall (input_df f encoded)] ++ l).
  rewrite !price_bands_app.
  assert (Hmid : price_bands
            match feature_importances_ model with
            | inl e => [prediction_error_box e]
            | inr importances =>
                match importance_df sort_values feature_names importances with
                | inl e => [prediction_error_box e]
                | inr df =>
                    rendered_bars progress_check 0 df
                      ++ match rows_outcome progress_check df with
                         | Raised e => [prediction_error_box e]
                         | _ => []
                         end
                end
            end = []).
  { destruct (feature_importances_ model) as [e|importances]; [reflexivity|].
    destruct (importance_df sort_values feature_names importances) as [e|df];
      [reflexivity|].
    rewrite price_bands_app, price_bands_rendered_bars.
    now destruct (rows_outcome progress_check df). }
  rewrite Hmid. reflexivity.
Qed.

(** C3 does not hold in binary64: for the estimate 250000.1 (the nearest
    double) the two bounds shown on the page are rounded, the band is
    [38026 - 2 ^ -35] wide, and the upper bound is not 19013 above the
    estimate. *)
Lemma price_band_is_rounded :
  price_bands (snd (run pandas_sort_values progress_between_0_and_1
                      fractional_price_disk example_form))
  = [(lower_bound fractional_price, upper_bound fractional_price)] /\
  exists p lo hi : Q,
    float_value fractional_price = Some p /\
    float_value (lower_bound fractional_price) = Some lo /\
    float_value (upper_bound fractional_price) = Some hi /\
    (hi - lo == 38026 - (1 # 34359738368))%Q /\
    ~ (hi - lo == 38026)%Q /\
    ~ (hi - p == 19013)%Q /\
    ~ (hi - p == p - lo)%Q.
Proof.
  split; [reflexivity|].
  eexists _, _, _.
  split; [reflexivity|]. split; [reflexivity|]. split; [reflexivity|].
  repeat split; vm_compute; discriminate || reflexivity.
Qed.

(** C3, amended: for every model and every estimate [price] it returns, the
    page shows one price band, whose bounds are the binary64 difference
    [price - 19013] and the binary64 sum [price + 19013]: the offset is the
    constant MODEL_STD_DEV of the script, the same for every model and
    input.  Each bound is the exact value rounded once, so when the estimate
    and the bounds are finite, each bound is within a relative error of
    [2 ^ -53] of the exact [p - 19013] and [p + 19013], and the band is
    38026 wide and symmetric around the estimate up to these two
    roundings. *)
Theorem price_band_fixed
  (sort_values : list ImportanceRow -> list ImportanceRow)
  (progress_check : float -> option Exception) (disk : Disk)
  (model : Model) (feature_names : list string)
  (f : FormState) (encoded : Z) (price : float) (rest : list float) :
  model_at disk MODEL_PATH = Loaded model ->
  features_at disk FEATURES_PATH = Loaded feature_names ->
  falsy feature_names = false ->
  neighborhood_encoded f = Some encoded ->
  submitted f = true ->
  predict model (input_df f encoded) = inr (price :: rest) ->
  price_bands (snd (run sort_values progress_check disk f))
  = [(lower_bound price, upper_bound price)] /\
  lower_bound price = (price - 19013)%float /\
  upper_bound price = (price + 19013)%float /\
  forall p lo hi : Q,
    float_value price = Some p ->
    float_value (lower_bound price) = Some lo ->
    float_value (upper_bound price) = Some hi ->
    (Qabs (lo - (p - 19013)) * 2 ^ 53 <= Qabs (p - 19013))%Q /\
    (Qabs (hi - (p + 19013)) * 2 ^ 53 <= Qabs (p + 19013))%Q /\
    (Qabs (hi - lo - 38026) * 2 ^ 53 <= Qabs (p + 19013) + Qabs (p - 19013))%Q /\
    (Qabs ((hi - p) - (p - lo)) * 2 ^ 53 <= Qabs (p + 19013) + Qabs (p - 19013))%Q.
Proof.
  intros Hm Hf Hne Henc Hsub Hp.
  split; [now apply (run_price_bands sort_values progress_check disk model
                       feature_names f encoded price rest)|].
  split; [reflexivity|]. split; [reflexivity|].
  intros p lo hi Hprice Hlo Hhi.
  destruct float_value_19013 as (c & Hc & Heq).
  change (lower_bound price) with (price - 19013)%float in Hlo.
  change (upper_bound price) with (price + 19013)%float in Hhi.
  pose proof (sub_error price 19013 p c lo Hprice Hc Hlo) as Hlower.
  pose proof (add_error price 19013 p c hi Hprice Hc Hhi) as Hupper.
  rewrite Heq in Hlower, Hupper.
  split; [exact Hlower|]. split; [exact Hupper|].
  assert (HK : (0 <= 2 ^ 53)%Q) by (apply Qlt_le_weak, pow2_pos).
  assert (Hlower' : (Qabs (- (lo - (p - 19013))) * 2 ^ 53 <= Qabs (p - 19013))%Q)
    by now rewrite Qabs_opp.
  split.
  - assert (Hsplit : (hi - lo - 38026
                      == (hi - (p + 19013)) + - (lo - (p - 19013)))%Q) by ring.
    rewrite Hsplit. now apply bound_add.
  - assert (Hsplit : (hi - p - (p - lo)
                      == (hi - (p + 19013)) + (lo - (p - 19013)))%Q) by ring.
    rewrite Hsplit. now apply bound_add.
Qed.

Lemma price_band_fixed_witness :
  price_bands (snd (run pandas_sort_values progress_between_0_and_1
                      example_disk example_form))
  = [(230987%float, 269013%float)].
Proof.
  exact (proj1 (price_band_fixed pandas_sort_values progress_between_0_and_1
                  example_disk example_model example_features example_form 10
                  250000%float []
                  eq_refl eq_refl eq_refl eq_refl eq_refl eq_refl)).
Defined.

(** ** The displayed percentages *)

Lemma displayed_percentages_ranking_bars rows : forall first,
  flat_map bar_percentage (progress_bars (ranking_bars first rows))
  = map Impact rows.
Proof.
  unfold ranking_bars.
  induction rows as [|row rows IH]; intros first; [reflexivity|].
  cbn [imap progress_bars flat_map map]. cbn [bar_percentage snd progress_text app].
  f_equal. rewrite <- (IH (S first)). do 2 f_equal.
  apply imap_ext. intros i x _. simpl. now rewrite Nat.add_succ_r.
Qed.

(** C5 does not hold as stated.  With two importances for three feature
    names the frame cannot be built and no importance is displayed; and
    with two feature names and the importances 1.5 and -0.5, which sum to 1,
    [st.progress] refuses the first value and no importance is displayed
    either. *)
Lemma importance_list_can_be_shorter :
  (feature_importances_ two_importances_model = inr [0.5%float; 0.5%float] /\
   (exists s, float_sum [0.5%float; 0.5%float] = Some s /\ (s == 1)%Q) /\
   features_at two_importances_disk FEATURES_PATH
   = Loaded ["TotalArea"; "OverallQual"; "HouseAge"] /\
   progress_bars (snd (run pandas_sort_values progress_between_0_and_1
                         two_importances_disk example_form)) = []) /\
  (feature_importances_ out_of_range_model = inr [1.5%float; (-0.5)%float] /\
   (exists s, float_sum [1.5%float; (-0.5)%float] = Some s /\ (s == 1)%Q) /\
   features_at out_of_range_disk FEATURES_PATH = Loaded ["TotalArea"; "OverallQual"] /\
   progress_bars (snd (run pandas_sort_values progress_between_0_and_1
                         out_of_range_disk example_form)) = []).
Proof.
  split.
  - split; [reflexivity|]. split; [|split; reflexivity].
    eexists. split; [reflexivity|]. vm_compute. reflexivity.
  - split; [reflexivity|]. split; [|split; reflexivity].
    eexists. split; [reflexivity|]. vm_compute. reflexivity.
Qed.

(** C5, amended: when the model reports as many importances as there are
    feature names and [st.progress] accepts each of them, one importance is
    displayed per feature name, and each displayed percentage is the
    binary64 product of the importance and 100.  When these numbers are
    finite, the exact sum [t] of the displayed percentages differs from 100
    times the exact sum [s] of the importances by at most [2 ^ -53] times
    100 times the sum [a] of their absolute values; so for importances
    without a negative entry that sum to 1, the percentages sum to 100
    within [100 * 2 ^ -53]. *)
Theorem importance_percentages
  (sort_values : list ImportanceRow -> list ImportanceRow)
  (progress_check : float -> option Exception) (disk : Disk)
  (model : Model) (feature_names : list string)
  (f : FormState) (encoded : Z) (price : float) (rest importances : list float) :
  model_at disk MODEL_PATH = Loaded model ->
  features_at disk FEATURES_PATH = Loaded feature_names ->
  falsy feature_names = false ->
  neighborhood_encoded f = Some encoded ->
  submitted f = true ->
  predict model (input_df f encoded) = inr (price :: rest) ->
  feature_importances_ model = inr importances ->
  length feature_names = length importances ->
  Permutation (sort_values (zip_with mkRow feature_names importances))
    (zip_with mkRow feature_names importances) ->
  all_accepted progress_check
    (sort_values (zip_with mkRow feature_names importances)) ->
  length (progress_bars (snd (run sort_values progress_check disk f)))
  = length feature_names /\
  displayed_percentages (snd (run sort_values progress_check disk f))
  = map (fun row => (Importance row * 100)%float)
      (sort_values (zip_with mkRow feature_names importances)) /\
  forall s a t : Q,
    float_sum importances = Some s ->
    float_sum (map abs importances) = Some a ->
    float_sum (displayed_percentages (snd (run sort_values progress_check disk f)))
    = Some t ->
    (Qabs (t - 100 * s) * 2 ^ 53 <= 100 * a)%Q /\
    (Forall (fun x => (0 <=? x)%float = true) importances ->
     (s == 1)%Q -> (Qabs (t - 100) * 2 ^ 53 <= 100)%Q).
Proof.
  intros Hm Hf Hne Henc Hsub Hp Hi Hlen Hperm Hall.
  pose proof (run_accepted_ranking sort_values progress_check disk model
                feature_names f encoded price rest importances
                Hm Hf Hne Henc Hsub Hp Hi Hlen Hall) as Hrun.
  destruct (frame_columns feature_names importances Hlen) as [Hnames Himps].
  assert (Hshown : displayed_percentages (snd (run sort_values progress_check disk f))
                   = map (fun row => (Importance row * 100)%float)
                       (sort_values (zip_with mkRow feature_names importances))).
  { rewrite Hrun. cbn [snd]. unfold displayed_percentages.
    rewrite progress_bars_of_result_page.
    apply displayed_percentages_ranking_bars. }
  split; [|split; [exact Hshown|]].
  - rewrite Hrun. cbn [snd].
    rewrite progress_bars_of_result_page, progress_bars_ranking_bars, length_imap.
    rewrite (Permutation_length Hperm).
    transitivity (length (map Feature (zip_with mkRow feature_names importances)));
      [symmetry; apply length_map|now rewrite Hnames].
  - intros s a t Hs Ha Ht. rewrite Hshown in Ht.
    assert (Hcolumn : Permutation
              (map (fun row => (Importance row * 100)%float)
                 (sort_values (zip_with mkRow feature_names importances)))
              (map (fun x => (x * 100)%float) importances)).
    { rewrite <- Himps at 2. rewrite map_map. now apply Permutation_map. }
    destruct (float_sum_perm _ _ Hcolumn t Ht) as (t' & Ht' & Heq).
    pose proof (percent_sum_error importances s a t' Hs Ha Ht') as Hbound.
    rewrite Heq in Hbound.
    split; [exact Hbound|].
    intros Hpos Hone.
    rewrite (float_sum_abs_nonneg importances s a Hpos Hs Ha), Hone in Hbound.
    exact Hbound.
Qed.

Lemma importance_percentages_witness :
  all_accepted progress_between_0_and_1
    (pandas_sort_values
       (zip_with mkRow example_features [0.25%float; 0.5%float; 0.25%float])) /\
  displayed_percentages
    (snd (run pandas_sort_values progress_between_0_and_1 example_disk
            example_form))
  = [50%float; 25%float; 25%float] /\
  exists t : Q,
    float_sum [50%float; 25%float; 25%float] = Some t /\ (t == 100)%Q.
Proof.
  assert (Hall : all_accepted progress_between_0_and_1
                   (pandas_sort_values
                      (zip_with mkRow example_features
                         [0.25%float; 0.5%float; 0.25%float])))
    by (repeat constructor).
  pose proof (importance_percentages pandas_sort_values progress_between_0_and_1
                example_disk example_model example_features example_form 10
                250000%float [] [0.25%float; 0.5%float; 0.25%float]
                eq_refl eq_refl eq_refl eq_refl eq_refl eq_refl eq_refl eq_refl
                (perm_swap _ _ _) Hall) as (_ & Hshown & _).
  split; [exact Hall|]. split; [rewrite Hshown; reflexivity|].
  eexists. split; [reflexivity|]. vm_compute. reflexivity.
Defined.
